(** * aumai-edumentor: content library, path generation and assessment

    A shallow embedding of [aumai_edumentor/models.py] and
    [aumai_edumentor/core.py], followed by the properties of
    [ContentLibrary.search], [PathGenerator.generate] and
    [AssessmentEngine.evaluate].

    Conventions of the embedding:
    - a Python [str] is a [string] holding its UTF-8 bytes; [str.strip] and
      [str.lower] are modelled on the ASCII range (the only range in which
      the literals they are compared with live); comparison of strings is
      bytewise, which on UTF-8 is comparison by code point;
    - a Python [int] is a [Z];
    - a Python [float] is a binary64 value, a [spec_float] with precision 53
      and maximal exponent 1024, and every operation rounds to nearest even
      as IEEE 754 prescribes;
    - a [dict] with string keys is a [gmap string _], a [set] of strings a
      [gset string];
    - [sorted] and [list.sort] are stable: they are modelled by a stable
      insertion sort that, like CPython, only ever asks whether one key is
      smaller than another. *)

From Stdlib Require Import ZArith List String Ascii Bool Lia.
From Stdlib Require Import Sorted Permutation SpecFloat DecimalString.
From stdpp Require Import gmap strings list.

Local Open Scope string_scope.
Local Open Scope Z_scope.
Local Open Scope list_scope.

(** ** Python strings *)

Module Str.

(** [str.isspace] on a single ASCII character: TAB, LF, VT, FF, CR, the
    four separators FS, GS, RS, US and the space. *)
Definition isspace (c : ascii) : bool :=
  let n := N_of_ascii c in
  ((9 <=? n) && (n <=? 13) || (28 <=? n) && (n <=? 32))%N.

Fixpoint lstrip (s : string) : string :=
  match s with
  | String c s' => if isspace c then lstrip s' else s
  | EmptyString => EmptyString
  end.

Fixpoint rstrip (s : string) : string :=
  match s with
  | String c s' =>
      match rstrip s' with
      | EmptyString => if isspace c then EmptyString else String c EmptyString
      | t => String c t
      end
  | EmptyString => EmptyString
  end.

(** [s.strip()] *)
Definition strip (s : string) : string := rstrip (lstrip s).

Definition lower_char (c : ascii) : ascii :=
  let n := N_of_ascii c in
  if ((65 <=? n) && (n <=? 90))%N then ascii_of_N (n + 32) else c.

(** [s.lower()] *)
Fixpoint lower (s : string) : string :=
  match s with
  | String c s' => String (lower_char c) (lower s')
  | EmptyString => EmptyString
  end.

(** Every character of [s] is whitespace. *)
Fixpoint all_space (s : string) : bool :=
  match s with
  | String c s' => isspace c && all_space s'
  | EmptyString => true
  end.

(** [s] neither starts nor ends with whitespace. *)
Fixpoint ends_trimmed (s : string) : bool :=
  match s with
  | String c EmptyString => negb (isspace c)
  | String _ s' => ends_trimmed s'
  | EmptyString => true
  end.

Definition trimmed (s : string) : bool :=
  match s with
  | String c _ => negb (isspace c) && ends_trimmed s
  | EmptyString => true
  end.

(** [s in xs] for a tuple or a list of strings *)
Definition mem (s : string) (xs : list string) : bool :=
  existsb (String.eqb s) xs.

(** [s1 < s2] *)
Definition lt (s1 s2 : string) : bool := String.ltb s1 s2.

(** [str(n)] for an [int] *)
Definition of_int (n : Z) : string := NilZero.string_of_int (Z.to_int n).

End Str.

(** ** Python objects

    The values an answer record can hold. Beyond [None], [bool], [int] and
    [str], any other object (a float, a list, a nested dict) is observed by
    the code only through [bool(v)] and [str(v)], and is represented by the
    results of these two calls. *)

Inductive pyobject : Type :=
| PyNone
| PyBool (b : bool)
| PyInt (n : Z)
| PyStr (s : string)
| PyOther (truth : bool) (text : string).


(** [bool(v)], the standard truth value *)
Definition py_bool (v : pyobject) : bool :=
  match v with
  | PyNone => false
  | PyBool b => b
  | PyInt n => negb (n =? 0)%Z
  | PyStr s => negb (String.eqb s "")
  | PyOther truth _ => truth
  end.

(** [str(v)] *)
Definition py_str (v : pyobject) : string :=
  match v with
  | PyNone => "None"
  | PyBool true => "True"
  | PyBool false => "False"
  | PyInt n => Str.of_int n
  | PyStr s => s
  | PyOther _ text => text
  end.

(** ** Binary64 floats *)

Module Float64.

Definition prec : Z := 53.
Definition emax : Z := 1024.

Definition float : Type := spec_float.

(** [float(n)]: the nearest float, in canonical form. *)
Definition of_int (n : Z) : float := binary_normalize prec emax n 0 false.

(** An integer as an unnormalised float of exponent 0: its exact value. *)
Definition exact (n : Z) : float :=
  match n with
  | Z0 => S754_zero false
  | Zpos p => S754_finite false p 0
  | Zneg p => S754_finite true p 0
  end.

(** [a / b] on two [int]s with [b] non-zero (Python raises
    [ZeroDivisionError] otherwise): the float nearest to the exact
    quotient. *)
Definition int_truediv (a b : Z) : float :=
  SFdiv prec emax (exact a) (exact b).

(** The float that a decimal literal denotes, the one nearest to
    [digits / 10^places]: [decimal 333 1] is [33.3]. *)
Definition decimal (digits : Z) (places : N) : float :=
  int_truediv digits (10 ^ Z.of_N places).

(** [x * n] for a float [x] and an [int] [n] *)
Definition mul_int (x : float) (n : Z) : float :=
  SFmul prec emax x (of_int n).

(** [x < n] for a float [x] and an [int] [n] that a float holds exactly *)
Definition lt_int (x : float) (n : Z) : bool :=
  SFltb x (of_int n).

(** The integer nearest to [a / b] for [b > 0], ties going to the even
    one. *)
Definition div_nearest_even (a b : Z) : Z :=
  let q := a / b in
  let r := a mod b in
  match 2 * r ?= b with
  | Lt => q
  | Gt => q + 1
  | Eq => if Z.even q then q else q + 1
  end.

(** The integer nearest to [m * 2^e * 10^ndigits], ties to even. *)
Definition scaled_nearest (m : positive) (e : Z) (ndigits : N) : Z :=
  let k := 10 ^ Z.of_N ndigits in
  match e with
  | Zneg p => div_nearest_even (Zpos m * k) (2 ^ Zpos p)
  | _ => Zpos m * k * 2 ^ e
  end.

(** [round(x, ndigits)] for [ndigits >= 0]: CPython prints [x] with
    [ndigits] decimals, correctly rounded from the exact binary value
    (ties to even), and reads the decimal back as the nearest float. *)
Definition round (x : float) (ndigits : N) : float :=
  match x with
  | S754_finite s m e =>
      match scaled_nearest m e ndigits with
      | Zpos t =>
          SFdiv prec emax (S754_finite s t 0) (exact (10 ^ Z.of_N ndigits))
      | _ => S754_zero s
      end
  | _ => x
  end.

End Float64.

(** ** [sorted] and [list.sort]

    [py_sorted key lt l] is [sorted(l, key=key)], where [lt] is [<] on the
    keys. An element is moved behind another one only when that one's key is
    strictly smaller, so elements with equal keys keep their order. *)

Section Sorting.

Context {A K : Type} (key : A → K) (lt : K → K → bool).

Fixpoint py_insert (x : A) (l : list A) : list A :=
  match l with
  | [] => [x]
  | y :: l' => if lt (key y) (key x) then y :: py_insert x l' else x :: y :: l'
  end.

Definition py_sorted (l : list A) : list A := fold_right py_insert [] l.

(** [x] may stand before [y]: the key of [y] is not the smaller one. *)
Definition in_order (x y : A) : Prop := lt (key y) (key x) = false.

(** The key of [x] is neither smaller nor greater than [k]. *)
Definition same_key (k : K) (x : A) : bool :=
  negb (lt (key x) k) && negb (lt k (key x)).

End Sorting.

(** [<] on two-element tuples: the first components decide unless they are
    equal. *)
Definition tuple_lt {A B : Type} (eqA ltA : A → A → bool) (ltB : B → B → bool)
    (x y : A * B) : bool :=
  if eqA (fst x) (fst y) then ltB (snd x) (snd y) else ltA (fst x) (fst y).

(** [x in range(lo, hi)] for an [int] [x] *)
Definition in_range (x lo hi : Z) : bool := ((lo <=? x) && (x <? hi))%Z.

(** ** models.py *)

Module LearnerProfile.
Record t : Type := Build {
  learner_id : string;
  name : string;
  age : Z;
  grade : Z;
  language : string;
  strengths : list string;
  weaknesses : list string;
  learning_style : string
}.

(** The constraints the model's fields declare; construction of a profile
    that violates one fails. *)
Definition valid (p : t) : Prop :=
  (4 <= age p <= 25)%Z ∧ (1 <= grade p <= 12)%Z ∧
  In (learning_style p) ["visual"; "auditory"; "kinesthetic"; "read-write"].
End LearnerProfile.

Module LearningContent.
Record t : Type := Build {
  content_id : string;
  subject : string;
  topic : string;
  difficulty : string;
  content_type : string;
  content : string;
  ncf_alignment : list string;
  grade_level : Z
}.

Definition valid (c : t) : Prop :=
  In (difficulty c) ["beginner"; "intermediate"; "advanced"] ∧
  In (content_type c) ["text"; "quiz"; "activity"] ∧
  (1 <= grade_level c <= 12)%Z.
End LearningContent.

Module LearningPath.
Record t : Type := Build {
  learner : LearnerProfile.t;
  content_sequence : list LearningContent.t;
  progress_pct : Float64.float
}.
End LearningPath.

Module AssessmentResult.
Record t : Type := Build {
  learner_id : string;
  subject : string;
  score : Float64.float;
  areas_to_improve : list string
}.
End AssessmentResult.

(** ** core.py *)

(** The double quote, for the one built-in item whose text is JSON. *)
Definition dq : string := String (ascii_of_N 34) EmptyString.

Definition _BUILTIN_CONTENT : list LearningContent.t :=
  [
    LearningContent.Build "math-001" "math"
      "Counting and Numbers"
      "beginner" "text"
      "Numbers from 1 to 100. Learn to count forwards and backwards. Practice skip counting by 2s, 5s, and 10s."
      ["NCF-MATH-G1-NUM-1"] 1;
    LearningContent.Build "math-002" "math"
      "Addition and Subtraction"
      "beginner" "activity"
      "Use counting beads or stones to practise addition and subtraction within 20. Story problems using local contexts."
      ["NCF-MATH-G2-OPS-1"] 2;
    LearningContent.Build "math-003" "math"
      "Multiplication Tables"
      "beginner" "text"
      "Multiplication tables from 1 to 10. Visual array models. Repeated addition concept. Practice with rhymes and patterns."
      ["NCF-MATH-G3-MUL-1"] 3;
    LearningContent.Build "math-004" "math"
      "Fractions"
      "intermediate" "text"
      "Understanding fractions as parts of a whole. Equivalent fractions. Comparing fractions with same and different denominators. Real-life examples: sharing rotis, dividing land."
      ["NCF-MATH-G5-FRA-1"] 5;
    LearningContent.Build "math-005" "math"
      "Fractions Quiz"
      "intermediate" "quiz"
      ("[{" +:+ dq +:+ "q" +:+ dq +:+ ":" +:+ dq +:+ "What is 1/2 + 1/4?" +:+ dq +:+ "," +:+ dq +:+
        "options" +:+ dq +:+ ":[" +:+ dq +:+ "1/2" +:+ dq +:+ "," +:+ dq +:+ "3/4" +:+ dq +:+ "," +:+
        dq +:+ "2/6" +:+ dq +:+ "," +:+ dq +:+ "1/6" +:+ dq +:+ "]," +:+ dq +:+ "answer" +:+ dq +:+
        ":" +:+ dq +:+ "3/4" +:+ dq +:+ "},{" +:+ dq +:+ "q" +:+ dq +:+ ":" +:+ dq +:+
        "Which is bigger: 2/3 or 3/4?" +:+ dq +:+ "," +:+ dq +:+ "options" +:+ dq +:+ ":[" +:+
        dq +:+ "2/3" +:+ dq +:+ "," +:+ dq +:+ "3/4" +:+ dq +:+ "," +:+ dq +:+ "Equal" +:+ dq +:+
        "," +:+ dq +:+ "Cannot tell" +:+ dq +:+ "]," +:+ dq +:+ "answer" +:+ dq +:+ ":" +:+ dq +:+
        "3/4" +:+ dq +:+ "}]")
      ["NCF-MATH-G5-FRA-2"] 5;
    LearningContent.Build "math-006" "math"
      "Algebra Introduction"
      "intermediate" "text"
      "Introduction to variables and simple equations. Solving x + 5 = 12. Writing word problems as equations."
      ["NCF-MATH-G7-ALG-1"] 7;
    LearningContent.Build "math-007" "math"
      "Geometry: Triangles"
      "intermediate" "activity"
      "Properties of triangles. Sum of angles = 180°. Types: equilateral, isosceles, scalene. Measure angles with protractor activity."
      ["NCF-MATH-G7-GEO-1"] 7;
    LearningContent.Build "math-008" "math"
      "Linear Equations"
      "advanced" "text"
      "Solving simultaneous linear equations by substitution and elimination. Real-world applications: mixtures, speed-distance-time."
      ["NCF-MATH-G9-ALG-2"] 9;
    LearningContent.Build "math-009" "math"
      "Quadratic Equations"
      "advanced" "text"
      "Solving ax²+bx+c=0 by factorisation and quadratic formula. Discriminant. Nature of roots."
      ["NCF-MATH-G10-ALG-3"] 10;
    LearningContent.Build "math-010" "math"
      "Statistics: Mean Median Mode"
      "intermediate" "activity"
      "Calculate mean, median, and mode from real data sets (e.g. rainfall, crop yields). Understand when to use each measure."
      ["NCF-MATH-G8-STAT-1"] 8;
    LearningContent.Build "sci-001" "science"
      "Plants and Photosynthesis"
      "beginner" "text"
      "How plants make food using sunlight, water, and carbon dioxide. Chlorophyll. Leaf structure. Importance of plants in food chain."
      ["NCF-SCI-G5-BIO-1"] 5;
    LearningContent.Build "sci-002" "science"
      "Human Body Systems"
      "intermediate" "text"
      "Digestive, circulatory, and respiratory systems. Functions of major organs. Nutrition and health. Hygiene practices."
      ["NCF-SCI-G7-BIO-2"] 7;
    LearningContent.Build "sci-003" "science"
      "Electricity and Circuits"
      "intermediate" "activity"
      "Build a simple circuit with battery, wire, and bulb. Conductors and insulators. Series vs parallel circuits. Safety with electricity."
      ["NCF-SCI-G7-PHY-1"] 7;
    LearningContent.Build "sci-004" "science"
      "Atoms and Molecules"
      "advanced" "text"
      "Structure of atom: protons, neutrons, electrons. Valency. Chemical formulae. Balancing equations. Periodic table introduction."
      ["NCF-SCI-G9-CHE-1"] 9;
    LearningContent.Build "sci-005" "science"
      "Ecosystems"
      "intermediate" "text"
      "Food chains and food webs. Producers, consumers, decomposers. Biodiversity. Indian ecosystems: forests, wetlands, grasslands."
      ["NCF-SCI-G8-ENV-1"] 8;
    LearningContent.Build "sci-006" "science"
      "Heredity and Evolution"
      "advanced" "text"
      "Mendel's laws of inheritance. Dominant and recessive traits. DNA basics. Theory of evolution and natural selection."
      ["NCF-SCI-G10-BIO-3"] 10;
    LearningContent.Build "hindi-001" "hindi"
      "Varnamala (Alphabet)"
      "beginner" "text"
      "Hindi alphabet: 11 swaras (vowels) and 35 vyanjanas (consonants). Devanagari script. Matras. Basic words."
      ["NCF-HINDI-G1-READ-1"] 1;
    LearningContent.Build "hindi-002" "hindi"
      "Reading Comprehension"
      "intermediate" "text"
      "Short stories and poems from Rimjhim textbook. Understanding main idea, characters, and moral. Answer in complete sentences."
      ["NCF-HINDI-G5-READ-2"] 5;
    LearningContent.Build "hindi-003" "hindi"
      "Essay Writing"
      "advanced" "activity"
      "Structure of a Hindi essay: Prastavan, Mukhya Bhag, Upasanhar. Practice topics: Mera Gaon, Paryavaran Pradushan, Swastha Jeevan."
      ["NCF-HINDI-G8-WRITE-1"] 8;
    LearningContent.Build "evs-001" "social_studies"
      "Our Neighbourhood"
      "beginner" "activity"
      "Map your school and home. Identify helpers in the community: farmers, teachers, doctors, postmen. Discuss their roles."
      ["NCF-EVS-G3-SOC-1"] 3;
    LearningContent.Build "evs-002" "social_studies"
      "Indian History: Ancient Civilisations"
      "intermediate" "text"
      "Indus Valley Civilisation: Harappa and Mohenjo-daro. Vedic period. Maurya Empire. Gupta Golden Age. Key contributions to science, mathematics, and art."
      ["NCF-SS-G6-HIST-1"] 6;
    LearningContent.Build "evs-003" "social_studies"
      "Indian Constitution and Democracy"
      "advanced" "text"
      "Fundamental Rights and Duties. Directive Principles. Structure of government: Legislature, Executive, Judiciary. Preamble and its significance."
      ["NCF-SS-G10-CIV-1"] 10;
    LearningContent.Build "eng-001" "english"
      "Basic Reading: Phonics"
      "beginner" "activity"
      "Letter sounds and blends. CVC words (cat, bat, mat). Short stories with illustrations. Oral reading practice."
      ["NCF-ENG-G1-READ-1"] 1;
    LearningContent.Build "eng-002" "english"
      "Grammar: Tenses"
      "intermediate" "text"
      "Simple present, past, and future tenses. Present and past continuous. Perfect tenses introduction. Common errors in Indian English."
      ["NCF-ENG-G6-GRAM-1"] 6;
    LearningContent.Build "eng-003" "english"
      "Letter Writing"
      "intermediate" "activity"
      "Formal and informal letter formats. Application for leave. Complaint letter. Invitation letter. Practice exercises with real contexts."
      ["NCF-ENG-G8-WRITE-1"] 8
  ].


Module ContentLibrary.

Record t : Type := Build { _contents : list LearningContent.t }.

(** [ContentLibrary()] *)
Definition init : t := Build _BUILTIN_CONTENT.

(** [self.add(content)] *)
Definition add (self : t) (content : LearningContent.t) : t :=
  Build (_contents self ++ [content]).

(** The key [lambda c: (c.grade_level, c.difficulty)] of [search] *)
Definition search_key (c : LearningContent.t) : Z * string :=
  (LearningContent.grade_level c, LearningContent.difficulty c).

Definition search_key_lt : Z * string → Z * string → bool :=
  tuple_lt Z.eqb Z.ltb Str.lt.

(** [self.search(subject, difficulty, grade)]; an argument left out is
    [None]. *)
Definition search (self : t) (subject : string) (difficulty : option string)
    (grade : option Z) : list LearningContent.t :=
  let results :=
    List.filter
      (fun c => String.eqb (Str.lower (LearningContent.subject c)) (Str.lower subject))
      (_contents self) in
  let results :=
    match difficulty with
    | Some d =>
        (* [if difficulty:] an empty string is false *)
        if py_bool (PyStr d)
        then List.filter (fun c => String.eqb (LearningContent.difficulty c) d) results
        else results
    | None => results
    end in
  let results :=
    match grade with
    | Some g => List.filter (fun c => (LearningContent.grade_level c =? g)%Z) results
    | None => results
    end in
  py_sorted search_key search_key_lt results.

(** [self.all_subjects()] *)
Definition all_subjects (self : t) : list string :=
  py_sorted id Str.lt
    (elements (list_to_set (map LearningContent.subject (_contents self)) : gset string)).

(** [self.all_content()] *)
Definition all_content (self : t) : list LearningContent.t := _contents self.

End ContentLibrary.

Definition _DIFFICULTY_ORDER : gmap string Z :=
  <["beginner" := 0%Z]> (<["intermediate" := 1%Z]> (<["advanced" := 2%Z]> ∅)).

Module PathGenerator.

Record t : Type := Build { _library : ContentLibrary.t }.

(** [c.grade_level in grade_range], with
    [grade_range = range(max(1, learner.grade - 1), min(12, learner.grade + 2))] *)
Definition in_grade_range (learner : LearnerProfile.t) (c : LearningContent.t) : bool :=
  in_range (LearningContent.grade_level c)
    (Z.max 1 (LearnerProfile.grade learner - 1))
    (Z.min 12 (LearnerProfile.grade learner + 2)).

(** [grade_filtered], as the list comprehension builds it *)
Definition grade_filtered (learner : LearnerProfile.t)
    (all_content : list LearningContent.t) : list LearningContent.t :=
  List.filter (in_grade_range learner) all_content.

(** [grade_filtered] after [if not grade_filtered: grade_filtered = all_content] *)
Definition with_fallback (learner : LearnerProfile.t)
    (all_content : list LearningContent.t) : list LearningContent.t :=
  match grade_filtered learner all_content with
  | [] => all_content
  | kept => kept
  end.

Definition starting_difficulty (learner : LearnerProfile.t) (subject : string) : string :=
  let subject_lower := Str.lower subject in
  let is_weak := Str.mem subject_lower (map Str.lower (LearnerProfile.weaknesses learner)) in
  if is_weak then "beginner" else "intermediate".

Definition sort_key (starting_difficulty : string) (content : LearningContent.t) : Z * Z :=
  let diff_val := default 1%Z (_DIFFICULTY_ORDER !! LearningContent.difficulty content) in
  let target := default 1%Z (_DIFFICULTY_ORDER !! starting_difficulty) in
  (Z.abs (diff_val - target), LearningContent.grade_level content).

Definition sort_key_lt : Z * Z → Z * Z → bool := tuple_lt Z.eqb Z.ltb Z.ltb.

(** [grade_filtered] after [grade_filtered.sort(key=sort_key)] *)
Definition ordered (learner : LearnerProfile.t) (subject : string)
    (items : list LearningContent.t) : list LearningContent.t :=
  py_sorted (sort_key (starting_difficulty learner subject)) sort_key_lt items.

Definition style_pref : gmap string string :=
  <["visual" := "activity"]> (<["auditory" := "text"]>
    (<["kinesthetic" := "activity"]> (<["read-write" := "text"]> ∅))).

Definition preferred_type (learner : LearnerProfile.t) : string :=
  default "text" (style_pref !! LearnerProfile.learning_style learner).

(** [preferred + others] *)
Definition partitioned (learner : LearnerProfile.t)
    (items : list LearningContent.t) : list LearningContent.t :=
  let preferred :=
    List.filter
      (fun c => String.eqb (LearningContent.content_type c) (preferred_type learner))
      items in
  let others :=
    List.filter
      (fun c => negb (String.eqb (LearningContent.content_type c) (preferred_type learner)))
      items in
  preferred ++ others.

(** One turn of the loop that fills [sequence], on the pair
    [(seen_ids, sequence)]. *)
Definition dedup_step (st : gset string * list LearningContent.t)
    (item : LearningContent.t) : gset string * list LearningContent.t :=
  let '(seen_ids, sequence) := st in
  if bool_decide (LearningContent.content_id item ∈ seen_ids)
  then st
  else ({[LearningContent.content_id item]} ∪ seen_ids, sequence ++ [item]).

Definition deduplicated (items : list LearningContent.t) : list LearningContent.t :=
  snd (fold_left dedup_step items (∅, [])).

(** [self.generate(learner, subject)] *)
Definition generate (self : t) (learner : LearnerProfile.t) (subject : string)
    : LearningPath.t :=
  let all_content := ContentLibrary.search (_library self) subject None None in
  let grade_filtered := with_fallback learner all_content in
  let grade_filtered := ordered learner subject grade_filtered in
  let sequence := deduplicated (partitioned learner grade_filtered) in
  LearningPath.Build learner sequence (S754_zero false).

End PathGenerator.

Module AssessmentEngine.

Definition _is_correct (value : pyobject) : bool :=
  match value with
  | PyStr s => negb (Str.mem (Str.lower (Str.strip s)) ["false"; "0"; "no"; ""])
  | _ => py_bool value
  end.

(** [_is_correct(a.get("correct", False))] *)
Definition judged_correct (a : gmap string pyobject) : bool :=
  _is_correct (default (PyBool false) (a !! "correct")).

(** [sum(1 for a in answers if _is_correct(a.get("correct", False)))] *)
Definition correct_count (answers : list (gmap string pyobject)) : Z :=
  fold_left (fun acc a => if judged_correct a then (acc + 1)%Z else acc) answers 0%Z.

(** [round(correct_count / len(answers) * 100, 1)] *)
Definition score_of (correct_count total : Z) : Float64.float :=
  Float64.round (Float64.mul_int (Float64.int_truediv correct_count total) 100) 1.

(** [str(answer.get("topic", subject))] *)
Definition topic_of (subject : string) (answer : gmap string pyobject) : string :=
  py_str (default (PyStr subject) (answer !! "topic")).

(** One turn of the loop that fills [incorrect_topics]. *)
Definition topic_step (subject : string) (incorrect_topics : list string)
    (answer : gmap string pyobject) : list string :=
  if negb (judged_correct answer) then
    let topic := topic_of subject answer in
    if negb (Str.mem topic incorrect_topics)
    then incorrect_topics ++ [topic]
    else incorrect_topics
  else incorrect_topics.

Definition incorrect_topics (subject : string)
    (answers : list (gmap string pyobject)) : list string :=
  fold_left (topic_step subject) answers [].

Definition no_answers_message : string :=
  "No answers provided — please attempt the assessment.".

Definition excellent_message : string :=
  "Continue to advanced topics — excellent performance!".

(** [self.evaluate(learner_id, subject, answers)] *)
Definition evaluate (learner_id subject : string)
    (answers : list (gmap string pyobject)) : AssessmentResult.t :=
  match answers with
  | [] =>
      AssessmentResult.Build learner_id subject (S754_zero false) [no_answers_message]
  | _ =>
      let score := score_of (correct_count answers) (Z.of_nat (length answers)) in
      let areas_to_improve := incorrect_topics subject answers in
      let areas_to_improve :=
        if Float64.lt_int score 40
        then areas_to_improve ++ ["Fundamental concepts in " +:+ subject]
        else areas_to_improve in
      let areas_to_improve :=
        match areas_to_improve with
        | [] => [excellent_message]
        | _ => areas_to_improve
        end in
      AssessmentResult.Build learner_id subject score areas_to_improve
  end.

End AssessmentEngine.

(** ** Notions of the specification

    The words the specification uses for what the code computes, written
    down on their own so that the code can be compared with them. *)

Module Spec.

(** The elements of [l] whose key was not seen before, in the order of
    [l]: of several elements with one key only the first is kept. *)
Fixpoint first_occurrences_from {A : Type} (key : A → string)
    (seen : list string) (l : list A) : list A :=
  match l with
  | [] => []
  | x :: l' =>
      if Str.mem (key x) seen
      then first_occurrences_from key seen l'
      else x :: first_occurrences_from key (key x :: seen) l'
  end.

Definition first_occurrences {A : Type} (key : A → string) (l : list A) : list A :=
  first_occurrences_from key [] l.




(** visual and kinesthetic learners prefer activities, all others text *)
Definition preferred_content_type (style : string) : string :=
  if String.eqb style "visual" then "activity"
  else if String.eqb style "auditory" then "text"
  else if String.eqb style "kinesthetic" then "activity"
  else if String.eqb style "read-write" then "text"
  else "text".

(** The inclusive grade window [[max(1, g-1), min(12, g+1)]]. *)
Definition in_grade_window (g : Z) (c : LearningContent.t) : bool :=
  (Z.max 1 (g - 1) <=? LearningContent.grade_level c) &&
  (LearningContent.grade_level c <=? Z.min 12 (g + 1)).

(** [round(100 * correctCount / totalCount, 1)], as the specification
    writes the score. *)
Definition score (correct_count total : Z) : Float64.float :=
  Float64.round (Float64.int_truediv (100 * correct_count) total) 1.

(** An item answers a query when its subject is the query's up to the case
    of the letters, its difficulty is the one asked for, if any, and its
    grade level is the one asked for, if any. *)
Definition answers_query (subject : string) (difficulty : option string)
    (grade : option Z) (c : LearningContent.t) : bool :=
  String.eqb (Str.lower (LearningContent.subject c)) (Str.lower subject) &&
  match difficulty with
  | Some d => String.eqb (LearningContent.difficulty c) d
  | None => true
  end &&
  match grade with
  | Some g => LearningContent.grade_level c =? g
  | None => true
  end.



End Spec.

(** ** Sample data

    Catalogues, learners and answer lists in the style of the repository's
    tests, for the statements below that are about one input. *)

Module Samples.

(** A custom item for the last grade. *)
Definition grade12_item : LearningContent.t :=
  LearningContent.Build "math-custom-012" "math" "Calculus: Limits" "advanced" "text"
    "Limits and continuity of functions." [] 12.

(** The built-in catalogue with the custom item added. *)
Definition library_with_grade12 : ContentLibrary.t :=
  ContentLibrary.add ContentLibrary.init grade12_item.

Definition learner (grade : Z) (weaknesses : list string) (learning_style : string)
    : LearnerProfile.t :=
  LearnerProfile.Build "L001" "Learner" 17 grade "en" [] weaknesses learning_style.

(** A custom item under the identifier of a built-in one. *)
Definition duplicate_item : LearningContent.t :=
  LearningContent.Build "math-006" "math" "Algebra Revisited" "intermediate" "text"
    "Equations with one unknown, once more." [] 7.

Definition library_with_duplicate : ContentLibrary.t :=
  ContentLibrary.add ContentLibrary.init duplicate_item.

(** [{"question_id": q, "correct": correct, "topic": topic}] *)
Definition answer (q : string) (correct : pyobject) (topic : string)
    : gmap string pyobject :=
  <["question_id" := PyStr q]> (<["correct" := correct]> (<["topic" := PyStr topic]> ∅)).

(** 23 right answers followed by 57 wrong ones. *)
Definition answers_23_of_80 : list (gmap string pyobject) :=
  replicate 23 (answer "q" (PyBool true) "Fractions") ++
  replicate 57 (answer "q" (PyBool false) "Algebra").

(** One right answer and two wrong ones. *)
Definition answers_1_of_3 : list (gmap string pyobject) :=
  [answer "q0" (PyBool true) "Topic"; answer "q1" (PyBool false) "Topic";
   answer "q2" (PyBool false) "Topic"].

(** Three wrong answers: two topics that differ in the case of a letter,
    and one that reads like the message for low scores. *)
Definition answers_all_wrong : list (gmap string pyobject) :=
  [answer "q0" (PyStr "no") "algebra"; answer "q1" (PyInt 0) "Algebra";
   answer "q2" (PyStr " FALSE ") "Fundamental concepts in math";
   answer "q3" PyNone "algebra"].


End Samples.

(** ** cli.py

    The computations of the commands [subjects] and [assess]; reading the
    files and printing are left to the caller. *)

Module Cli.




(** [x >= n] for a float [x] and an [int] [n] that a float holds exactly *)
Definition ge_int (x : Float64.float) (n : Z) : bool :=
  SFleb (Float64.of_int n) x.

(** [grade_label] of [assess]:
    ["Excellent" if score >= 80 else "Good" if score >= 60 else "Needs Improvement"] *)
Definition grade_label (score : Float64.float) : string :=
  if ge_int score 80 then "Excellent"
  else if ge_int score 60 then "Good"
  else "Needs Improvement".

End Cli.

(** ** Notions for the further properties *)

Module Notions.

(** The answer record with its correctness flag replaced by the boolean that
    [evaluate] reads from it. *)
Definition with_boolean_flag (a : gmap string pyobject) : gmap string pyobject :=
  <["correct" := PyBool (AssessmentEngine.judged_correct a)]> a.

(** The message [evaluate] adds for a score below 40. *)
Definition fundamental_message (subject : string) : string :=
  "Fundamental concepts in " +:+ subject.

(** The item is of the content type the learner's style prefers. *)
Definition is_preferred (learner : LearnerProfile.t) (c : LearningContent.t) : bool :=
  String.eqb (LearningContent.content_type c)
    (Spec.preferred_content_type (LearnerProfile.learning_style learner)).



(** The restriction that the optional arguments of [search] put on an item
    of the subject. *)
Definition passes_filters (difficulty : option string) (grade : option Z)
    (c : LearningContent.t) : bool :=
  match difficulty with
  | Some d => String.eqb d "" || String.eqb (LearningContent.difficulty c) d
  | None => true
  end &&
  match grade with
  | Some g => LearningContent.grade_level c =? g
  | None => true
  end.

End Notions.

(** * Properties *)

(** ** The order of strings *)


Lemma ascii_compare_lt_trans (a b c : ascii) :
  Ascii.compare a b = Lt → Ascii.compare b c = Lt → Ascii.compare a c = Lt.
Proof.
  unfold Ascii.compare. rewrite !N.compare_lt_iff. apply N.lt_trans.
Qed.


Lemma string_compare_lt_trans (s1 s2 s3 : string) :
  String.compare s1 s2 = Lt → String.compare s2 s3 = Lt → String.compare s1 s3 = Lt.
Proof.
  revert s2 s3.
  induction s1 as [|c1 s1 IH]; intros [|c2 s2] [|c3 s3]; simpl; try congruence.
  destruct (Ascii.compare c1 c2) eqn:H12; try discriminate.
  - apply Ascii.compare_eq_iff in H12. subst c2.
    destruct (Ascii.compare c1 c3); try congruence. apply IH.
  - intros _.
    destruct (Ascii.compare c2 c3) eqn:H23; try discriminate.
    + apply Ascii.compare_eq_iff in H23. subst c3. now rewrite H12.
    + intros _. now rewrite (ascii_compare_lt_trans _ _ _ H12 H23).
Qed.


Lemma str_lt_asym (s1 s2 : string) : Str.lt s1 s2 = true → Str.lt s2 s1 = false.
Proof.
  unfold Str.lt, String.ltb. rewrite (String.compare_antisym s1 s2).
  destruct (String.compare s2 s1); simpl; congruence.
Qed.

Lemma str_lt_trans (s1 s2 s3 : string) :
  Str.lt s1 s2 = true → Str.lt s2 s3 = true → Str.lt s1 s3 = true.
Proof.
  unfold Str.lt, String.ltb. intros H12 H23.
  destruct (String.compare s1 s2) eqn:E12; try discriminate.
  destruct (String.compare s2 s3) eqn:E23; try discriminate.
  now rewrite (string_compare_lt_trans _ _ _ E12 E23).
Qed.

Lemma str_lt_total (s1 s2 : string) :
  Str.lt s1 s2 = false → Str.lt s2 s1 = false → s1 = s2.
Proof.
  unfold Str.lt, String.ltb. rewrite (String.compare_antisym s1 s2).
  destruct (String.compare s2 s1) eqn:E; simpl; try congruence.
  intros _ _. symmetry. now apply String.compare_eq_iff.
Qed.


(** ** [str.strip] and [str.lower] *)

Lemma append_nil_l (s : string) : "" +:+ s = s.
Proof. reflexivity. Qed.

Lemma append_cons (c : ascii) (s t : string) : String c s +:+ t = String c (s +:+ t).
Proof. reflexivity. Qed.

Lemma rstrip_decompose (s : string) :
  ∃ post, s = Str.rstrip s +:+ post ∧ Str.all_space post = true.
Proof.
  induction s as [|c s (post & Hs & Hpost)]; [now exists ""|]. simpl.
  destruct (Str.rstrip s) as [|c' t] eqn:E.
  - rewrite append_nil_l in Hs. subst post. destruct (Str.isspace c) eqn:Ec.
    + exists (String c s). rewrite append_nil_l. simpl. now rewrite Ec.
    + exists s. now rewrite append_cons, append_nil_l.
  - exists post. rewrite append_cons. now rewrite <- Hs.
Qed.

Lemma lstrip_decompose (s : string) :
  ∃ pre, s = pre +:+ Str.lstrip s ∧ Str.all_space pre = true.
Proof.
  induction s as [|c s (pre & Hs & Hpre)]; [now exists ""|]. simpl.
  destruct (Str.isspace c) eqn:Ec.
  - exists (String c pre). rewrite append_cons. simpl. now rewrite Ec, <- Hs.
  - now exists "".
Qed.

Lemma rstrip_ends_trimmed (s : string) : Str.ends_trimmed (Str.rstrip s) = true.
Proof.
  induction s as [|c s IH]; [reflexivity|]. simpl.
  destruct (Str.rstrip s) as [|c' t] eqn:E.
  - destruct (Str.isspace c) eqn:Ec; simpl; [reflexivity|now rewrite Ec].
  - exact IH.
Qed.

(** What [strip] returns is the string without a run of whitespace at its
    start and one at its end, and it neither starts nor ends with
    whitespace. *)
Lemma strip_spec (s : string) :
  Str.trimmed (Str.strip s) = true ∧
  ∃ pre post, s = pre +:+ Str.strip s +:+ post ∧
              Str.all_space pre = true ∧ Str.all_space post = true.
Proof.
  unfold Str.strip. split.
  - pose proof (rstrip_ends_trimmed (Str.lstrip s)) as He.
    destruct (Str.rstrip (Str.lstrip s)) as [|c t] eqn:E; [reflexivity|].
    unfold Str.trimmed. rewrite He, andb_true_r.
    destruct s as [|c0 s]; [discriminate|].
    assert (Hc : ∃ u, Str.lstrip (String c0 s) = String c u ∧ Str.isspace c = false).
    { clear He. revert E. generalize (String c0 s). intros s0.
      induction s0 as [|a s0 IH]; simpl; [discriminate|].
      destruct (Str.isspace a) eqn:Ea; [exact IH|].
      simpl. destruct (Str.rstrip s0); rewrite ?Ea; intros [= <- _]; eauto. }
    destruct Hc as (u & _ & ->). reflexivity.
  - destruct (lstrip_decompose s) as (pre & Hs & Hpre).
    destruct (rstrip_decompose (Str.lstrip s)) as (post & Hl & Hpost).
    exists pre, post. now rewrite <- Hl.
Qed.


Lemma lower_length (s : string) : String.length (Str.lower s) = String.length s.
Proof. induction s as [|c s IH]; simpl; congruence. Qed.

(** ** Sorting

    What [py_sorted] returns is a permutation of its argument, in the order
    of the keys, and it never swaps two elements neither of which has the
    smaller key. *)

Section SortingFacts.

Context {A K : Type} (key : A → K) (lt : K → K → bool).

Lemma py_insert_perm (x : A) (l : list A) :
  Permutation (py_insert key lt x l) (x :: l).
Proof.
  induction l as [|y l IH]; simpl; [reflexivity|].
  destruct (lt (key y) (key x)); [|reflexivity].
  rewrite IH. apply perm_swap.
Qed.

Lemma py_sorted_perm (l : list A) : Permutation (py_sorted key lt l) l.
Proof.
  induction l as [|x l IH]; simpl; [reflexivity|].
  rewrite py_insert_perm. now constructor.
Qed.

Lemma py_sorted_In (x : A) (l : list A) : In x (py_sorted key lt l) ↔ In x l.
Proof.
  split; apply Permutation_in; [|symmetry]; apply py_sorted_perm.
Qed.


Lemma py_insert_filter (p : A → bool) (x : A) (l : list A) :
  (∀ y, In y l → p x = true → p y = true → lt (key y) (key x) = false) →
  List.filter p (py_insert key lt x l) = List.filter p (x :: l).
Proof.
  induction l as [|y l IH]; intros Hp; [reflexivity|].
  simpl py_insert. destruct (lt (key y) (key x)) eqn:E; [|reflexivity].
  simpl. rewrite IH by (intros z Hz; apply Hp; now right). simpl.
  destruct (p x) eqn:Hx, (p y) eqn:Hy; try reflexivity.
  rewrite (Hp y) in E by (auto; now left). discriminate.
Qed.

(** Stability: among elements none of which has a smaller key than
    another, and so among elements of one key, the order is kept. *)
Lemma py_sorted_stable (p : A → bool) (l : list A) :
  (∀ x y, p x = true → p y = true → lt (key y) (key x) = false) →
  List.filter p (py_sorted key lt l) = List.filter p l.
Proof.
  intros Hp. induction l as [|x l IH]; [reflexivity|].
  simpl py_sorted. rewrite py_insert_filter by (intros; now apply Hp).
  simpl. now rewrite IH.
Qed.

Hypothesis lt_asym : ∀ a b, lt a b = true → lt b a = false.
Hypothesis le_trans : ∀ a b c, lt b a = false → lt c b = false → lt c a = false.

Lemma py_insert_sorted (x : A) (l : list A) :
  StronglySorted (in_order key lt) l →
  StronglySorted (in_order key lt) (py_insert key lt x l).
Proof.
  induction l as [|y l IH]; intros Hs; simpl.
  - repeat constructor.
  - apply StronglySorted_inv in Hs as [Hl Hy].
    destruct (lt (key y) (key x)) eqn:E.
    + constructor; [now apply IH|].
      rewrite List.Forall_forall in Hy |- *. intros z Hz.
      apply (Permutation_in _ (py_insert_perm x l)) in Hz as [<-|Hz].
      * now apply lt_asym.
      * now apply Hy.
    + constructor; [now constructor|].
      constructor; [exact E|].
      rewrite List.Forall_forall in Hy |- *. intros z Hz.
      unfold in_order. apply (le_trans _ (key y)); [exact E|]. now apply Hy.
Qed.

Lemma py_sorted_sorted (l : list A) :
  StronglySorted (in_order key lt) (py_sorted key lt l).
Proof.
  induction l as [|x l IH]; simpl; [constructor|]. now apply py_insert_sorted.
Qed.

Hypothesis lt_irrefl : ∀ a, lt a a = false.

Lemma same_key_refl (x : A) : same_key key lt (key x) x = true.
Proof. unfold same_key. now rewrite lt_irrefl. Qed.

(** The first element of a given key in a sorted list stands before all
    elements of other keys that are also in a second sorted list whose
    first element it is. *)
Lemma sorted_head_unique (x : A) (t1 l2 : list A) :
  StronglySorted (in_order key lt) (x :: t1) →
  StronglySorted (in_order key lt) l2 →
  (∀ k, List.filter (same_key key lt k) (x :: t1) = List.filter (same_key key lt k) l2) →
  ∃ t2, l2 = x :: t2.
Proof.
  intros H1 H2 Hf. destruct l2 as [|y t2].
  - specialize (Hf (key x)). simpl in Hf. rewrite same_key_refl in Hf. discriminate.
  - exists t2. f_equal.
    destruct (same_key key lt (key x) y) eqn:Ey.
    + specialize (Hf (key x)). simpl in Hf. rewrite same_key_refl, Ey in Hf. congruence.
    + exfalso.
      assert (Hy1 : In y (x :: t1)).
      { apply (proj1 (filter_In (same_key key lt (key y)) y (x :: t1))).
        rewrite Hf. simpl. rewrite same_key_refl. now left. }
      assert (Hx2 : In x (y :: t2)).
      { apply (proj1 (filter_In (same_key key lt (key x)) x (y :: t2))).
        rewrite <- Hf. simpl. rewrite same_key_refl. now left. }
      apply StronglySorted_inv in H1 as [_ H1], H2 as [_ H2].
      rewrite List.Forall_forall in H1, H2.
      destruct Hy1 as [->|Hy1]; [now rewrite same_key_refl in Ey|].
      destruct Hx2 as [->|Hx2]; [now rewrite same_key_refl in Ey|].
      specialize (H1 y Hy1). specialize (H2 x Hx2). unfold in_order in H1, H2.
      unfold same_key in Ey. now rewrite H1, H2 in Ey.
Qed.

(** Two sorted lists that hold the same elements of every key, in the same
    order, are one list. *)
Lemma sorted_stable_unique (l1 l2 : list A) :
  StronglySorted (in_order key lt) l1 →
  StronglySorted (in_order key lt) l2 →
  (∀ k, List.filter (same_key key lt k) l1 = List.filter (same_key key lt k) l2) →
  l1 = l2.
Proof.
  revert l2. induction l1 as [|x t1 IH]; intros l2 H1 H2 Hf.
  - destruct l2 as [|y t2]; [reflexivity|].
    specialize (Hf (key y)). simpl in Hf. rewrite same_key_refl in Hf. discriminate.
  - destruct (sorted_head_unique x t1 l2 H1 H2 Hf) as [t2 ->].
    f_equal. apply IH.
    + now apply StronglySorted_inv in H1.
    + now apply StronglySorted_inv in H2.
    + intros k. specialize (Hf k). simpl in Hf.
      destruct (same_key key lt k x); congruence.
Qed.

(** [py_sorted] is the only stable sort: a sorted list that holds the
    elements of every key in the order in which [l] has them is
    [py_sorted l]. So it is what [sorted] and [list.sort] return, by
    whatever algorithm. *)
Lemma py_sorted_unique (l l' : list A) :
  StronglySorted (in_order key lt) l' →
  (∀ k, List.filter (same_key key lt k) l' = List.filter (same_key key lt k) l) →
  l' = py_sorted key lt l.
Proof.
  intros Hs Hf. apply sorted_stable_unique; [exact Hs|apply py_sorted_sorted|].
  intros k. rewrite Hf. symmetry. apply py_sorted_stable.
  intros x y Hx Hy. unfold same_key in Hx, Hy.
  apply andb_prop in Hx as [_ Hx], Hy as [Hy _].
  apply negb_true_iff in Hx, Hy. now apply (le_trans _ k).
Qed.

End SortingFacts.

(** The two orders on keys that the code sorts by. *)


Lemma search_key_lt_asym (a b : Z * string) :
  ContentLibrary.search_key_lt a b = true → ContentLibrary.search_key_lt b a = false.
Proof.
  destruct a as [g1 d1], b as [g2 d2].
  unfold ContentLibrary.search_key_lt, tuple_lt. simpl.
  rewrite (Z.eqb_sym g2 g1).
  destruct (Z.eqb_spec g1 g2); [apply str_lt_asym|].
  rewrite !Z.ltb_lt, Z.ltb_ge. lia.
Qed.

Lemma search_key_le_trans (a b c : Z * string) :
  ContentLibrary.search_key_lt b a = false →
  ContentLibrary.search_key_lt c b = false →
  ContentLibrary.search_key_lt c a = false.
Proof.
  destruct a as [g1 d1], b as [g2 d2], c as [g3 d3].
  unfold ContentLibrary.search_key_lt, tuple_lt. simpl.
  destruct (Z.eqb_spec g2 g1), (Z.eqb_spec g3 g2), (Z.eqb_spec g3 g1);
    rewrite ?Z.ltb_ge; try lia.
  intros H21 H32.
  destruct (Str.lt d3 d1) eqn:H31; [|reflexivity].
  destruct (Str.lt d1 d2) eqn:H12.
  - now rewrite (str_lt_trans _ _ _ H31 H12) in H32.
  - rewrite (str_lt_total _ _ H12 H21) in H31. congruence.
Qed.





Lemma filter_filter_andb {A : Type} (p q : A → bool) (l : list A) :
  List.filter q (List.filter p l) = List.filter (fun x => p x && q x) l.
Proof.
  induction l as [|x l IH]; simpl; [reflexivity|].
  destruct (p x); simpl; [destruct (q x)|]; now rewrite IH.
Qed.

(** ** [ContentLibrary.search] *)

(** The difficulty the code filters by: an empty string is as good as no
    argument. *)
Lemma search_unfold (self : ContentLibrary.t) (subject : string)
    (difficulty : option string) (grade : option Z) :
  ContentLibrary.search self subject difficulty grade =
  py_sorted ContentLibrary.search_key ContentLibrary.search_key_lt
    (List.filter
       (Spec.answers_query subject
          (match difficulty with Some "" => None | d => d end) grade)
       (ContentLibrary._contents self)).
Proof.
  unfold ContentLibrary.search, Spec.answers_query. f_equal.
  destruct difficulty as [[|c d]|], grade as [g|]; simpl;
    rewrite ?filter_filter_andb; apply filter_ext; intros x;
    now rewrite ?andb_true_r, ?andb_assoc.
Qed.





(** ** First occurrences *)

Lemma str_mem_In (s : string) (xs : list string) : Str.mem s xs = true ↔ In s xs.
Proof.
  unfold Str.mem. rewrite existsb_exists. split.
  - intros (x & Hx & Heq). apply String.eqb_eq in Heq. now subst.
  - intros H. exists s. split; [exact H|apply String.eqb_refl].
Qed.

Lemma str_mem_false (s : string) (xs : list string) : Str.mem s xs = false ↔ ¬ In s xs.
Proof.
  rewrite <- str_mem_In. destruct (Str.mem s xs); intuition congruence.
Qed.

Section FirstOccurrences.

Context {A : Type} (key : A → string).

Lemma first_occurrences_from_ext (seen seen' : list string) (l : list A) :
  (∀ k, Str.mem k seen = Str.mem k seen') →
  Spec.first_occurrences_from key seen l = Spec.first_occurrences_from key seen' l.
Proof.
  revert seen seen'. induction l as [|x l IH]; intros seen seen' Hs; [reflexivity|].
  simpl. rewrite <- Hs. destruct (Str.mem (key x) seen); [now apply IH|].
  f_equal. apply IH. intros k. unfold Str.mem in *. simpl. now rewrite Hs.
Qed.

Lemma first_occurrences_from_In (seen : list string) (l : list A) (x : A) :
  In x (Spec.first_occurrences_from key seen l) → In x l ∧ ¬ In (key x) seen.
Proof.
  revert seen. induction l as [|y l IH]; intros seen; simpl; [tauto|].
  destruct (Str.mem (key y) seen) eqn:E.
  - intros H. apply IH in H. tauto.
  - intros [<-|H].
    + split; [now left|]. now apply str_mem_false.
    + apply IH in H as [H1 H2]. split; [now right|]. intros H3. apply H2. now right.
Qed.

Lemma first_occurrences_from_NoDup (seen : list string) (l : list A) :
  NoDup (map key (Spec.first_occurrences_from key seen l)).
Proof.
  revert seen. induction l as [|x l IH]; intros seen; simpl; [constructor|].
  destruct (Str.mem (key x) seen); [apply IH|].
  simpl. apply NoDup_cons_2; [|apply IH].
  rewrite list_elem_of_In, in_map_iff. intros (y & Hy & Hin).
  apply first_occurrences_from_In in Hin as [_ Hin]. apply Hin. left. now symmetry.
Qed.

Lemma first_occurrences_from_sublist (seen : list string) (l : list A) :
  sublist (Spec.first_occurrences_from key seen l) l.
Proof.
  revert seen. induction l as [|x l IH]; intros seen; simpl; [constructor|].
  destruct (Str.mem (key x) seen); [apply sublist_cons|apply sublist_skip]; apply IH.
Qed.

(** The first element of [l] with a key that was not seen is kept. *)
Lemma first_occurrences_from_find (seen : list string) (l : list A) (k : string) (x : A) :
  ¬ In k seen →
  find (fun y => String.eqb (key y) k) l = Some x →
  In x (Spec.first_occurrences_from key seen l).
Proof.
  revert seen. induction l as [|y l IH]; intros seen Hk; simpl; [discriminate|].
  destruct (String.eqb_spec (key y) k) as [->|Hne].
  - intros [= ->]. apply str_mem_false in Hk. rewrite Hk. now left.
  - intros Hf. destruct (Str.mem (key y) seen); [now apply IH|].
    right. apply IH; [|exact Hf]. intros [H|H]; [congruence|tauto].
Qed.

Lemma find_key_of_In (l : list A) (x : A) :
  In x l → ∃ y, find (fun y => String.eqb (key y) (key x)) l = Some y.
Proof.
  induction l as [|z l IH]; simpl; [tauto|].
  intros H. destruct (String.eqb_spec (key z) (key x)) as [_|Hne]; [eauto|].
  destruct H as [->|H]; [congruence|now apply IH].
Qed.

End FirstOccurrences.

(** ** [PathGenerator.generate] *)

(** The loop over [preferred + others] keeps the first occurrence of every
    identifier. *)
Lemma dedup_loop_spec (items : list LearningContent.t) (seen_ids : gset string)
    (seen : list string) (sequence : list LearningContent.t) :
  (∀ k, bool_decide (k ∈ seen_ids) = Str.mem k seen) →
  snd (fold_left PathGenerator.dedup_step items (seen_ids, sequence)) =
  sequence ++ Spec.first_occurrences_from LearningContent.content_id seen items.
Proof.
  revert seen_ids seen sequence.
  induction items as [|x items IH]; intros seen_ids seen sequence Hseen; simpl.
  - now rewrite app_nil_r.
  - rewrite Hseen. destruct (Str.mem (LearningContent.content_id x) seen) eqn:E.
    + now apply IH.
    + rewrite (IH _ (LearningContent.content_id x :: seen)).
      * now rewrite <- app_assoc.
      * intros k. unfold Str.mem in *. simpl. rewrite <- (Hseen k).
        destruct (String.eqb_spec k (LearningContent.content_id x)) as [->|Hne].
        -- apply bool_decide_eq_true, elem_of_union. left. now apply elem_of_singleton.
        -- simpl. apply bool_decide_ext. rewrite elem_of_union, elem_of_singleton. tauto.
Qed.

Lemma deduplicated_spec (items : list LearningContent.t) :
  PathGenerator.deduplicated items =
  Spec.first_occurrences LearningContent.content_id items.
Proof.
  unfold PathGenerator.deduplicated, Spec.first_occurrences.
  rewrite (dedup_loop_spec items ∅ [] []); [reflexivity|].
  intros k. reflexivity.
Qed.


Lemma style_pref_get (style : string) :
  default "text" (PathGenerator.style_pref !! style) = Spec.preferred_content_type style.
Proof.
  unfold PathGenerator.style_pref, Spec.preferred_content_type.
  destruct (String.eqb_spec style "visual") as [->|H1]; [reflexivity|].
  rewrite lookup_insert_ne by congruence.
  destruct (String.eqb_spec style "auditory") as [->|H2]; [reflexivity|].
  rewrite lookup_insert_ne by congruence.
  destruct (String.eqb_spec style "kinesthetic") as [->|H3]; [reflexivity|].
  rewrite lookup_insert_ne by congruence.
  destruct (String.eqb_spec style "read-write") as [->|H4]; [reflexivity|].
  now rewrite lookup_insert_ne by congruence.
Qed.



Lemma in_grade_range_spec (learner : LearnerProfile.t) (c : LearningContent.t) :
  PathGenerator.in_grade_range learner c = true ↔
  Z.max 1 (LearnerProfile.grade learner - 1) <= LearningContent.grade_level c
  < Z.min 12 (LearnerProfile.grade learner + 2).
Proof.
  unfold PathGenerator.in_grade_range, in_range.
  now rewrite andb_true_iff, Z.leb_le, Z.ltb_lt.
Qed.

(** No grade window of the code holds the last grade. *)
Lemma grade_12_never_in_range (learner : LearnerProfile.t) (c : LearningContent.t) :
  LearningContent.grade_level c = 12 → PathGenerator.in_grade_range learner c = false.
Proof.
  intros H. apply not_true_is_false. rewrite in_grade_range_spec. lia.
Qed.

(** Up to grade 10 the code's window is the one of the specification. *)
Lemma in_grade_range_window (learner : LearnerProfile.t) (c : LearningContent.t) :
  LearnerProfile.grade learner <= 10 →
  PathGenerator.in_grade_range learner c =
  Spec.in_grade_window (LearnerProfile.grade learner) c.
Proof.
  intros Hg. apply eq_true_iff_eq. rewrite in_grade_range_spec.
  unfold Spec.in_grade_window. rewrite andb_true_iff, !Z.leb_le. lia.
Qed.

Lemma partitioned_perm (learner : LearnerProfile.t) (items : list LearningContent.t) :
  Permutation (PathGenerator.partitioned learner items) items.
Proof.
  unfold PathGenerator.partitioned.
  induction items as [|c items IH]; simpl; [reflexivity|].
  destruct (String.eqb (LearningContent.content_type c) (PathGenerator.preferred_type learner));
    simpl.
  - now constructor.
  - rewrite <- Permutation_middle. now constructor.
Qed.

Lemma with_fallback_In (learner : LearnerProfile.t) (items : list LearningContent.t)
    (c : LearningContent.t) :
  In c (PathGenerator.with_fallback learner items) → In c items.
Proof.
  unfold PathGenerator.with_fallback, PathGenerator.grade_filtered.
  destruct (List.filter _ items) as [|x kept] eqn:E; [tauto|].
  rewrite <- E. intros H. now apply filter_In in H.
Qed.


(** C1. The specification's window for a learner of grade 12 is [[11, 12]]
    and for a learner of grade 11 it is [[10, 12]], but the code's
    [range(max(1, g - 1), min(12, g + 2))] ends before 12 in both cases: a
    mathematics item of grade level 12, stored in the catalogue and returned
    by the subject search, lies in the specification's window and is not
    among the items the grade filter keeps. For the learner of grade 12 the
    filter keeps nothing at all. *)
Theorem C1_grade_12_item_is_filtered_out :
  let all_content :=
    ContentLibrary.search Samples.library_with_grade12 "math" None None in
  let learner12 := Samples.learner 12 [] "visual" in
  let learner11 := Samples.learner 11 [] "visual" in
  LearnerProfile.valid learner12 ∧ LearnerProfile.valid learner11 ∧
  LearningContent.valid Samples.grade12_item ∧
  In Samples.grade12_item all_content ∧
  Spec.in_grade_window 12 Samples.grade12_item = true ∧
  Spec.in_grade_window 11 Samples.grade12_item = true ∧
  PathGenerator.grade_filtered learner12 all_content = [] ∧
  ¬ In Samples.grade12_item (PathGenerator.grade_filtered learner11 all_content).
Proof.
  intros all_content learner12 learner11.
  split; [unfold LearnerProfile.valid; simpl; intuition lia|].
  split; [unfold LearnerProfile.valid; simpl; intuition lia|].
  split; [unfold LearningContent.valid; simpl; intuition lia|].
  split.
  { apply py_sorted_In, filter_In. split; [|reflexivity].
    apply in_or_app. right. now left. }
  split; [reflexivity|]. split; [reflexivity|].
  split; [reflexivity|].
  intros H. apply filter_In in H as [_ H].
  now rewrite grade_12_never_in_range in H.
Qed.

(** C4. The content sequence of the path that [generate] returns holds no
    identifier twice; it consists of the first occurrence of every
    identifier of the partitioned list, in the order of that list; and every
    item of it is an item of the catalogue. *)
Theorem C4_generate_sequence_is_deduplicated (self : PathGenerator.t)
    (learner : LearnerProfile.t) (subject : string) :
  let library := PathGenerator._library self in
  let parts :=
    PathGenerator.partitioned learner
      (PathGenerator.ordered learner subject
         (PathGenerator.with_fallback learner
            (ContentLibrary.search library subject None None))) in
  let sequence := LearningPath.content_sequence (PathGenerator.generate self learner subject) in
  NoDup (map LearningContent.content_id sequence) ∧
  sequence = Spec.first_occurrences LearningContent.content_id parts ∧
  sublist sequence parts ∧
  (∀ c, In c parts →
     ∃ c', find (fun x => String.eqb (LearningContent.content_id x)
                            (LearningContent.content_id c)) parts = Some c' ∧
           In c' sequence) ∧
  (∀ c, In c sequence → In c (ContentLibrary.all_content library)).
Proof.
  intros library parts sequence.
  assert (Hseq : sequence = Spec.first_occurrences LearningContent.content_id parts)
    by apply deduplicated_spec.
  rewrite Hseq. unfold Spec.first_occurrences.
  split; [apply first_occurrences_from_NoDup|].
  split; [reflexivity|].
  split; [apply first_occurrences_from_sublist|].
  split.
  - intros c Hc.
    destruct (find_key_of_In LearningContent.content_id parts c Hc) as [c' Hc'].
    exists c'. split; [exact Hc'|].
    eapply first_occurrences_from_find; [|exact Hc']. intros [].
  - intros c Hc. apply first_occurrences_from_In in Hc as [Hc _].
    apply (Permutation_in _ (partitioned_perm _ _)) in Hc.
    apply py_sorted_In, with_fallback_In, py_sorted_In, filter_In in Hc.
    apply Hc.
Qed.

(** A catalogue with two items under one identifier: the path of a learner
    of grade 7 holds the identifier once, and only items of the catalogue. *)
Lemma C4_duplicate_identifier_listed_once :
  let self := PathGenerator.Build Samples.library_with_duplicate in
  let sequence :=
    LearningPath.content_sequence
      (PathGenerator.generate self (Samples.learner 7 [] "auditory") "math") in
  In Samples.duplicate_item
    (ContentLibrary.search Samples.library_with_duplicate "math" None None) ∧
  map LearningContent.content_id sequence = ["math-006"; "math-007"; "math-010"] ∧
  NoDup (map LearningContent.content_id sequence) ∧
  (∀ c, In c sequence → In c (ContentLibrary.all_content Samples.library_with_duplicate)).
Proof.
  pose proof (C4_generate_sequence_is_deduplicated
                (PathGenerator.Build Samples.library_with_duplicate)
                (Samples.learner 7 [] "auditory") "math") as (Hnodup & _ & _ & _ & Hin).
  split.
  { apply py_sorted_In, filter_In. split; [|reflexivity].
    apply in_or_app. right. now left. }
  split; [reflexivity|]. split; [exact Hnodup|exact Hin].
Defined.




(** ** Binary64 arithmetic *)

Lemma div_eucl_div_mod (a b : Z) : Z.div_eucl a b = (a / b, a mod b).
Proof. unfold Z.div, Z.modulo. now destruct (Z.div_eucl a b). Qed.

(** The quotient of a positive integer by itself: the mantissa [2^53] at
    exponent [-53], with nothing left to round. *)
Lemma div_core_diag (n : positive) :
  SFdiv_core_binary Float64.prec Float64.emax (Zpos n) 0 (Zpos n) 0 =
  (2 ^ 53, -53, loc_Exact).
Proof.
  unfold SFdiv_core_binary.
  replace (Zdigits2 (Z.pos n) + 0 - (Zdigits2 (Z.pos n) + 0)) with 0 by lia.
  change (Z.min (fexp Float64.prec Float64.emax 0) (0 - 0)) with (-53).
  cbv zeta. change (0 - 0 - -53) with 53. cbv iota.
  rewrite div_eucl_div_mod, Z.shiftl_mul_pow2 by lia.
  rewrite (Z.mul_comm (Z.pos n) (2 ^ 53)), Z.div_mul, Z.mod_mul by lia.
  replace (new_location (Z.pos n) 0) with loc_Exact; [reflexivity|].
  unfold new_location. now destruct (Z.even (Z.pos n)).
Qed.

(** [n / n] is [1.0]. *)
Lemma int_truediv_diag (n : positive) :
  Float64.int_truediv (Zpos n) (Zpos n) = Float64.of_int 1.
Proof.
  unfold Float64.int_truediv, Float64.exact, SFdiv.
  rewrite div_core_diag. reflexivity.
Qed.

(** [0 / n] is [0.0]. *)
Lemma int_truediv_zero (n : positive) :
  Float64.int_truediv 0 (Zpos n) = S754_zero false.
Proof. reflexivity. Qed.

(** ** [AssessmentEngine.evaluate] *)

Lemma correct_count_from (answers : list (gmap string pyobject)) (acc : Z) :
  fold_left (fun acc a => if AssessmentEngine.judged_correct a then acc + 1 else acc)
    answers acc =
  acc + Z.of_nat (length (List.filter AssessmentEngine.judged_correct answers)).
Proof.
  revert acc. induction answers as [|a answers IH]; intros acc; simpl; [lia|].
  rewrite IH. destruct (AssessmentEngine.judged_correct a); simpl length; lia.
Qed.

Lemma correct_count_spec (answers : list (gmap string pyobject)) :
  AssessmentEngine.correct_count answers =
  Z.of_nat (length (List.filter AssessmentEngine.judged_correct answers)).
Proof. unfold AssessmentEngine.correct_count. now rewrite correct_count_from. Qed.

Lemma correct_count_all (answers : list (gmap string pyobject)) :
  List.Forall (fun a => AssessmentEngine.judged_correct a = true) answers →
  AssessmentEngine.correct_count answers = Z.of_nat (length answers).
Proof.
  intros H. rewrite correct_count_spec. do 2 f_equal.
  induction H as [|a answers Ha _ IH]; simpl; [reflexivity|]. now rewrite Ha, IH.
Qed.

Lemma score_of_all_correct (n : positive) :
  AssessmentEngine.score_of (Zpos n) (Zpos n) = Float64.of_int 100.
Proof.
  unfold AssessmentEngine.score_of. rewrite int_truediv_diag. reflexivity.
Qed.

(** The topics of the answers judged incorrect, one for each such answer. *)
Lemma topic_loop_spec (subject : string) (answers : list (gmap string pyobject))
    (acc : list string) :
  fold_left (AssessmentEngine.topic_step subject) answers acc =
  acc ++ Spec.first_occurrences_from id acc
           (map (AssessmentEngine.topic_of subject)
              (List.filter (fun a => negb (AssessmentEngine.judged_correct a)) answers)).
Proof.
  revert acc. induction answers as [|a answers IH]; intros acc; simpl.
  - now rewrite app_nil_r.
  - unfold AssessmentEngine.topic_step at 2.
    destruct (AssessmentEngine.judged_correct a); simpl; [apply IH|].
    unfold id at 1.
    destruct (Str.mem (AssessmentEngine.topic_of subject a) acc); simpl; [apply IH|].
    rewrite IH, <- app_assoc. simpl. do 2 f_equal.
    apply first_occurrences_from_ext. intros k. unfold Str.mem, id.
    rewrite existsb_app. simpl. now rewrite orb_false_r, orb_comm.
Qed.

Lemma incorrect_topics_spec (subject : string) (answers : list (gmap string pyobject)) :
  AssessmentEngine.incorrect_topics subject answers =
  Spec.first_occurrences id
    (map (AssessmentEngine.topic_of subject)
       (List.filter (fun a => negb (AssessmentEngine.judged_correct a)) answers)).
Proof. unfold AssessmentEngine.incorrect_topics. now rewrite topic_loop_spec. Qed.

Lemma first_occurrences_id_In (l : list string) (s : string) :
  In s (Spec.first_occurrences id l) ↔ In s l.
Proof.
  unfold Spec.first_occurrences. split.
  - intros H. now apply first_occurrences_from_In in H.
  - intros H. destruct (find_key_of_In id l s H) as [y Hy].
    pose proof (find_some _ _ Hy) as [_ Heq]. apply String.eqb_eq in Heq.
    unfold id in Heq at 1. subst y.
    eapply first_occurrences_from_find; [|exact Hy]. intros [].
Qed.

Lemma first_occurrences_nil {A : Type} (key : A → string) (l : list A) :
  Spec.first_occurrences key l = [] ↔ l = [].
Proof.
  split; [|now intros ->]. destruct l; [reflexivity|discriminate].
Qed.

Lemma filter_incorrect_nil (answers : list (gmap string pyobject)) :
  List.filter (fun a => negb (AssessmentEngine.judged_correct a)) answers = [] ↔
  List.Forall (fun a => AssessmentEngine.judged_correct a = true) answers.
Proof.
  induction answers as [|a answers IH]; simpl.
  - split; [constructor|reflexivity].
  - destruct (AssessmentEngine.judged_correct a) eqn:E; simpl.
    + rewrite IH. split; [now constructor|]. intros H. now inversion H.
    + split; [discriminate|]. intros H. inversion H. congruence.
Qed.

Lemma evaluate_score (learner_id subject : string) (answers : list (gmap string pyobject)) :
  answers ≠ [] →
  AssessmentResult.score (AssessmentEngine.evaluate learner_id subject answers) =
  AssessmentEngine.score_of (AssessmentEngine.correct_count answers)
    (Z.of_nat (length answers)).
Proof. destruct answers; [congruence|reflexivity]. Qed.

Lemma evaluate_areas (learner_id subject : string) (answers : list (gmap string pyobject)) :
  answers ≠ [] →
  let score := AssessmentResult.score (AssessmentEngine.evaluate learner_id subject answers) in
  let listed :=
    AssessmentEngine.incorrect_topics subject answers ++
    (if Float64.lt_int score 40 then ["Fundamental concepts in " +:+ subject] else []) in
  AssessmentResult.areas_to_improve (AssessmentEngine.evaluate learner_id subject answers) =
  match listed with
  | [] => [AssessmentEngine.excellent_message]
  | _ => listed
  end.
Proof.
  destruct answers as [|a answers]; [congruence|]. intros _. cbv zeta.
  unfold AssessmentEngine.evaluate.
  cbn [AssessmentResult.score AssessmentResult.areas_to_improve].
  destruct (Float64.lt_int _ 40); [reflexivity|]. now rewrite app_nil_r.
Qed.



(** C8. For the empty answer list the score is [0.0] and the only area to
    improve is the request to attempt the assessment. *)
Theorem C8_evaluate_no_answers (learner_id subject : string) :
  let result := AssessmentEngine.evaluate learner_id subject [] in
  AssessmentResult.score result = Float64.of_int 0 ∧
  AssessmentResult.areas_to_improve result =
    ["No answers provided — please attempt the assessment."] ∧
  AssessmentResult.learner_id result = learner_id ∧
  AssessmentResult.subject result = subject.
Proof. repeat split. Qed.

(** C6. For a non-empty answer list the areas to improve are: the topics of
    the answers judged incorrect, each topic once, in the order of first
    occurrence (topics that differ in the case of a letter are different
    topics); then, when the score is below 40, the message about the
    fundamental concepts of the subject, whether or not it is among the
    topics already; and, when there is nothing so far, which is the case
    exactly when every answer is correct, the one message that encourages
    the learner to go on. *)
Theorem C6_areas_to_improve (learner_id subject : string)
    (answers : list (gmap string pyobject)) :
  answers ≠ [] →
  let result := AssessmentEngine.evaluate learner_id subject answers in
  let topics :=
    Spec.first_occurrences id
      (map (AssessmentEngine.topic_of subject)
         (List.filter (fun a => negb (AssessmentEngine.judged_correct a)) answers)) in
  let listed :=
    topics ++
    (if Float64.lt_int (AssessmentResult.score result) 40
     then ["Fundamental concepts in " +:+ subject] else []) in
  AssessmentResult.areas_to_improve result =
    match listed with
    | [] => ["Continue to advanced topics — excellent performance!"]
    | _ => listed
    end ∧
  (listed = [] ↔ List.Forall (fun a => AssessmentEngine.judged_correct a = true) answers).
Proof.
  intros Hne result topics listed. split.
  - subst result listed topics. rewrite evaluate_areas by exact Hne. cbv zeta.
    now rewrite incorrect_topics_spec.
  - subst listed. split.
    + intros H. apply app_eq_nil in H as [H _].
      apply first_occurrences_nil, map_eq_nil in H. now apply filter_incorrect_nil.
    + intros Hall. subst result. rewrite evaluate_score by exact Hne.
      rewrite (correct_count_all _ Hall).
      destruct answers as [|a answers]; [congruence|].
      change (Z.of_nat (length (a :: answers)))
        with (Z.pos (Pos.of_succ_nat (length answers))).
      rewrite score_of_all_correct.
      apply filter_incorrect_nil in Hall. subst topics. now rewrite Hall.
Qed.

(** Four wrong answers: the topics in two spellings are both listed, the
    repeated one once, and the message for low scores comes a second time
    after a topic that reads the same. *)
Lemma C6_areas_of_all_wrong_answers :
  Samples.answers_all_wrong ≠ [] ∧
  AssessmentResult.areas_to_improve
    (AssessmentEngine.evaluate "L001" "math" Samples.answers_all_wrong) =
  ["algebra"; "Algebra"; "Fundamental concepts in math"; "Fundamental concepts in math"].
Proof.
  split; [discriminate|].
  rewrite (proj1 (C6_areas_to_improve "L001" "math" Samples.answers_all_wrong
                    ltac:(discriminate))).
  reflexivity.
Defined.

(** C9, as the code has it. For a non-empty answer list the score is the
    quotient of the number of correct answers by the number of answers,
    taken first and as a float, then multiplied by 100 and rounded to one
    decimal: [round(correct_count / len(answers) * 100, 1)]. One correct
    answer of three gives 33.3, and answers that are all correct give
    100.0. *)
Theorem C9_score_rounds_ratio_times_100 (learner_id subject : string)
    (answers : list (gmap string pyobject)) :
  answers ≠ [] →
  let correct := Z.of_nat (length (List.filter AssessmentEngine.judged_correct answers)) in
  let total := Z.of_nat (length answers) in
  let score := AssessmentResult.score (AssessmentEngine.evaluate learner_id subject answers) in
  score = Float64.round (Float64.mul_int (Float64.int_truediv correct total) 100) 1 ∧
  (correct = 1 → total = 3 → score = Float64.decimal 333 1) ∧
  (correct = total → score = Float64.of_int 100).
Proof.
  intros Hne correct total score.
  assert (Hscore : score = AssessmentEngine.score_of correct total).
  { subst score correct total. rewrite evaluate_score by exact Hne.
    now rewrite correct_count_spec. }
  split; [exact Hscore|]. split.
  - intros -> ->. rewrite Hscore. reflexivity.
  - intros Heq. rewrite Hscore, Heq. subst total.
    destruct answers as [|a answers]; [congruence|].
    change (Z.of_nat (length (a :: answers)))
      with (Z.pos (Pos.of_succ_nat (length answers))).
    apply score_of_all_correct.
Qed.

(** One correct answer of three scores 33.3. *)
Lemma C9_score_of_1_of_3 :
  Samples.answers_1_of_3 ≠ [] ∧
  AssessmentResult.score (AssessmentEngine.evaluate "L001" "math" Samples.answers_1_of_3) =
  Float64.decimal 333 1.
Proof.
  split; [discriminate|].
  apply (C9_score_rounds_ratio_times_100 "L001" "math" Samples.answers_1_of_3
           ltac:(discriminate)); reflexivity.
Defined.

(** C9, as the specification words it, fails for 23 correct answers of 80:
    [100 * 23 / 80] is 28.75 and rounds to 28.8, but [23 / 80] is not a
    float, the nearest float times 100 is a float below 28.75, and the
    code's score is 28.7. *)
Lemma C9_score_of_23_of_80 :
  let result := AssessmentEngine.evaluate "L001" "math" Samples.answers_23_of_80 in
  length Samples.answers_23_of_80 = 80%nat ∧
  AssessmentEngine.correct_count Samples.answers_23_of_80 = 23 ∧
  AssessmentResult.score result = Float64.decimal 287 1 ∧
  Spec.score 23 80 = Float64.decimal 288 1 ∧
  AssessmentResult.score result ≠ Spec.score 23 80.
Proof.
  assert (H : AssessmentResult.score
                (AssessmentEngine.evaluate "L001" "math" Samples.answers_23_of_80) =
              Float64.decimal 287 1) by (vm_compute; reflexivity).
  cbv zeta. rewrite H.
  repeat split; try (vm_compute; reflexivity).
  vm_compute. discriminate.
Qed.



(** * Further properties *)

(** ** Sorting and filtering *)

Section SortingFilter.

Context {A K : Type} (key : A → K) (lt : K → K → bool).

Hypothesis lt_asym : ∀ a b, lt a b = true → lt b a = false.
Hypothesis le_trans : ∀ a b c, lt b a = false → lt c b = false → lt c a = false.

Lemma py_insert_head (x : A) (l : list A) :
  (∀ y, In y l → lt (key y) (key x) = false) → py_insert key lt x l = x :: l.
Proof.
  destruct l as [|y l]; [reflexivity|]. intros H. simpl.
  now rewrite (H y) by now left.
Qed.

Lemma py_insert_filter_sorted (p : A → bool) (x : A) (l : list A) :
  StronglySorted (in_order key lt) l →
  List.filter p (py_insert key lt x l) =
  if p x then py_insert key lt x (List.filter p l) else List.filter p l.
Proof.
  induction l as [|y l IH]; intros Hs.
  - simpl. now destruct (p x).
  - apply StronglySorted_inv in Hs as [Hl Hy]. rewrite List.Forall_forall in Hy.
    simpl py_insert. destruct (lt (key y) (key x)) eqn:E.
    + simpl. rewrite (IH Hl).
      destruct (p x), (p y); simpl; rewrite ?E; reflexivity.
    + change (List.filter p (x :: y :: l))
        with (if p x then x :: List.filter p (y :: l) else List.filter p (y :: l)).
      destruct (p x); [|reflexivity].
      symmetry. apply py_insert_head. intros z Hz.
      apply filter_In in Hz as [[<-|Hz] _]; [exact E|].
      apply (le_trans _ (key y)); [exact E|]. now apply Hy.
Qed.

(** Filtering a sorted list and sorting a filtered list come to the same. *)
Lemma py_sorted_filter (p : A → bool) (l : list A) :
  List.filter p (py_sorted key lt l) = py_sorted key lt (List.filter p l).
Proof.
  induction l as [|x l IH]; [reflexivity|]. simpl.
  rewrite py_insert_filter_sorted by now apply py_sorted_sorted.
  rewrite IH. now destruct (p x).
Qed.

End SortingFilter.

Lemma sublist_filter_l {A : Type} (p : A → bool) (l : list A) :
  sublist (List.filter p l) l.
Proof.
  induction l as [|x l IH]; simpl; [constructor|].
  destruct (p x); [now apply sublist_skip|now apply sublist_cons].
Qed.


(** ** More on [ContentLibrary] *)

Lemma answers_query_split (subject : string) (difficulty : option string)
    (grade : option Z) (c : LearningContent.t) :
  Spec.answers_query subject (match difficulty with Some "" => None | d => d end) grade c =
  Spec.answers_query subject None None c && Notions.passes_filters difficulty grade c.
Proof.
  unfold Spec.answers_query, Notions.passes_filters.
  destruct difficulty as [[|a d]|]; simpl; now rewrite ?andb_true_r, ?andb_assoc.
Qed.


(** X2. The optional arguments of [search] only remove items: the result
    of a search with a difficulty or a grade is the result of the search
    for the subject alone without the items of another difficulty or
    grade, in the same order. *)
Theorem X2_search_filters_only_remove (self : ContentLibrary.t) (subject : string)
    (difficulty : option string) (grade : option Z) :
  ContentLibrary.search self subject difficulty grade =
  List.filter (Notions.passes_filters difficulty grade)
    (ContentLibrary.search self subject None None).
Proof.
  rewrite !search_unfold.
  rewrite (py_sorted_filter _ _ search_key_lt_asym search_key_le_trans).
  rewrite filter_filter_andb. f_equal. apply filter_ext. intros c.
  apply answers_query_split.
Qed.

Lemma str_le_trans (a b c : string) :
  Str.lt b a = false → Str.lt c b = false → Str.lt c a = false.
Proof.
  intros Hba Hcb. destruct (Str.lt c a) eqn:Hca; [|reflexivity].
  destruct (Str.lt a b) eqn:Hab.
  - now rewrite (str_lt_trans _ _ _ Hca Hab) in Hcb.
  - rewrite (str_lt_total _ _ Hab Hba) in Hca. congruence.
Qed.

Lemma all_subjects_In (self : ContentLibrary.t) (s : string) :
  In s (ContentLibrary.all_subjects self) ↔
  ∃ c, In c (ContentLibrary.all_content self) ∧ LearningContent.subject c = s.
Proof.
  unfold ContentLibrary.all_subjects, ContentLibrary.all_content.
  rewrite py_sorted_In, <- list_elem_of_In, elem_of_elements, elem_of_list_to_set.
  rewrite list_elem_of_In, in_map_iff. split; intros (c & H1 & H2); exists c; tauto.
Qed.

Lemma all_subjects_NoDup (self : ContentLibrary.t) :
  NoDup (ContentLibrary.all_subjects self).
Proof.
  unfold ContentLibrary.all_subjects.
  rewrite py_sorted_perm. apply NoDup_elements.
Qed.

Lemma strictly_sorted_of_NoDup (l : list string) :
  StronglySorted (in_order id Str.lt) l → NoDup l →
  StronglySorted (fun a b => Str.lt a b = true) l.
Proof.
  induction 1 as [|x l Hl IH Hx]; intros Hnd; [constructor|].
  apply NoDup_cons in Hnd as [Hnotin Hnd]. constructor; [now apply IH|].
  rewrite List.Forall_forall in Hx |- *. intros y Hy.
  specialize (Hx y Hy). unfold in_order, id in Hx.
  destruct (Str.lt x y) eqn:E; [reflexivity|].
  rewrite (str_lt_total _ _ E Hx) in Hnotin. now apply list_elem_of_In in Hy.
Qed.

(** X3. [all_subjects] returns the subjects that items of the catalogue
    have, spelled as they are stored, each of them once, in the ascending
    order of strings. *)
Theorem X3_all_subjects_sorted_distinct (self : ContentLibrary.t) :
  let subjects := ContentLibrary.all_subjects self in
  (∀ s, In s subjects ↔
        ∃ c, In c (ContentLibrary.all_content self) ∧ LearningContent.subject c = s) ∧
  NoDup subjects ∧
  StronglySorted (fun a b => Str.lt a b = true) subjects.
Proof.
  intros subjects. split; [apply all_subjects_In|].
  split; [apply all_subjects_NoDup|].
  apply strictly_sorted_of_NoDup; [|apply all_subjects_NoDup].
  apply py_sorted_sorted; [apply str_lt_asym|apply str_le_trans].
Qed.




(** ** More on [PathGenerator.generate] *)

Lemma generate_sequence (self : PathGenerator.t) (learner : LearnerProfile.t)
    (subject : string) :
  LearningPath.content_sequence (PathGenerator.generate self learner subject) =
  Spec.first_occurrences LearningContent.content_id
    (PathGenerator.partitioned learner
       (PathGenerator.ordered learner subject
          (PathGenerator.with_fallback learner
             (ContentLibrary.search (PathGenerator._library self) subject None None)))).
Proof. unfold PathGenerator.generate. simpl. apply deduplicated_spec. Qed.

Lemma partitioned_spec (learner : LearnerProfile.t) (items : list LearningContent.t) :
  PathGenerator.partitioned learner items =
  List.filter (Notions.is_preferred learner) items ++
  List.filter (fun c => negb (Notions.is_preferred learner c)) items.
Proof.
  unfold PathGenerator.partitioned, PathGenerator.preferred_type, Notions.is_preferred.
  now rewrite style_pref_get.
Qed.









Lemma first_occurrences_from_NoDup_id {A : Type} (key : A → string)
    (seen : list string) (l : list A) :
  NoDup (map key l) → (∀ x, In x l → ¬ In (key x) seen) →
  Spec.first_occurrences_from key seen l = l.
Proof.
  revert seen. induction l as [|x l IH]; intros seen Hnd Hseen; [reflexivity|].
  simpl in Hnd |- *. apply NoDup_cons in Hnd as [Hx Hnd].
  rewrite (proj2 (str_mem_false _ _)) by (apply Hseen; now left).
  f_equal. apply IH; [exact Hnd|].
  intros y Hy [Heq|Hin].
  - apply Hx. rewrite Heq. apply list_elem_of_In. now apply in_map.
  - apply (Hseen y); [now right|exact Hin].
Qed.

Lemma first_occurrences_keys {A : Type} (key : A → string) (l : list A) (k : string) :
  In k (map key (Spec.first_occurrences key l)) ↔ In k (map key l).
Proof.
  rewrite !in_map_iff. split.
  - intros (x & Hk & Hx). exists x. split; [exact Hk|].
    now apply first_occurrences_from_In in Hx.
  - intros (x & Hk & Hx). destruct (find_key_of_In key l x Hx) as [y Hy].
    exists y. split.
    + apply find_some in Hy as [_ Hy]. apply String.eqb_eq in Hy. congruence.
    + eapply first_occurrences_from_find; [|exact Hy]. intros [].
Qed.

Lemma sublist_map {A B : Type} (f : A → B) (l1 l2 : list A) :
  sublist l1 l2 → sublist (map f l1) (map f l2).
Proof. induction 1; simpl; now constructor. Qed.

(** X7. A generated path has the identifiers of the items that [generate]
    selected, all of them; and when no two items of the subject share an
    identifier, the path is a rearrangement of the selected items: nothing
    is lost and nothing is added. *)
Theorem X7_generate_keeps_every_identifier (self : PathGenerator.t)
    (learner : LearnerProfile.t) (subject : string) :
  let all_content := ContentLibrary.search (PathGenerator._library self) subject None None in
  let selected := PathGenerator.with_fallback learner all_content in
  let sequence := LearningPath.content_sequence (PathGenerator.generate self learner subject) in
  (∀ k, In k (map LearningContent.content_id sequence) ↔
        In k (map LearningContent.content_id selected)) ∧
  (NoDup (map LearningContent.content_id all_content) → Permutation sequence selected).
Proof.
  intros all_content selected sequence.
  assert (Hperm : Permutation
                    (PathGenerator.partitioned learner
                       (PathGenerator.ordered learner subject selected)) selected).
  { rewrite partitioned_perm. apply py_sorted_perm. }
  split.
  - intros k. subst sequence. rewrite generate_sequence, first_occurrences_keys.
    fold all_content selected.
    split; apply Permutation_in, Permutation_map; [|symmetry]; exact Hperm.
  - intros Hnd. subst sequence. rewrite generate_sequence. fold all_content selected.
    unfold Spec.first_occurrences.
    rewrite first_occurrences_from_NoDup_id; [exact Hperm| |intros x _ []].
    rewrite Hperm.
    assert (Hsub : sublist selected all_content).
    { subst selected. unfold PathGenerator.with_fallback, PathGenerator.grade_filtered.
      destruct (List.filter _ all_content) eqn:E; [reflexivity|].
      rewrite <- E. apply sublist_filter_l. }
    exact (sublist_NoDup _ _ Hnd (sublist_map _ _ _ Hsub)).
Qed.

(** The mathematics path of a learner of grade 7 over the built-in
    catalogue, whose identifiers are all different, rearranges the three
    items of grades 6 to 8. *)
Lemma X7_grade_7_path_is_rearrangement :
  let self := PathGenerator.Build ContentLibrary.init in
  let learner := Samples.learner 7 ["math"] "visual" in
  let all_content := ContentLibrary.search ContentLibrary.init "math" None None in
  map LearningContent.content_id (PathGenerator.with_fallback learner all_content) =
    ["math-006"; "math-007"; "math-010"] ∧
  Permutation
    (LearningPath.content_sequence (PathGenerator.generate self learner "math"))
    (PathGenerator.with_fallback learner all_content).
Proof.
  split; [reflexivity|].
  apply (X7_generate_keeps_every_identifier
           (PathGenerator.Build ContentLibrary.init)
           (Samples.learner 7 ["math"] "visual") "math").
  apply (bool_decide_unpack _). vm_compute. exact I.
Defined.

Lemma filter_all {A : Type} (p : A → bool) (l : list A) :
  (∀ x, In x l → p x = true) → List.filter p l = l.
Proof.
  induction l as [|x l IH]; intros H; [reflexivity|]. simpl.
  rewrite (H x) by now left. f_equal. apply IH. intros y Hy. apply H. now right.
Qed.

Lemma filter_none {A : Type} (p : A → bool) (l : list A) :
  (∀ x, In x l → p x = false) → List.filter p l = [].
Proof.
  induction l as [|x l IH]; intros H; [reflexivity|]. simpl.
  rewrite (H x) by now left. apply IH. intros y Hy. apply H. now right.
Qed.

(** The two groups of a generated path: the items of the preferred type,
    then the others, each group a sublist of the sorted items. *)
Lemma generate_groups (self : PathGenerator.t) (learner : LearnerProfile.t)
    (subject : string) :
  let sorted :=
    PathGenerator.ordered learner subject
      (PathGenerator.with_fallback learner
         (ContentLibrary.search (PathGenerator._library self) subject None None)) in
  let sequence := LearningPath.content_sequence (PathGenerator.generate self learner subject) in
  let preferred := List.filter (Notions.is_preferred learner) sequence in
  let others := List.filter (fun c => negb (Notions.is_preferred learner c)) sequence in
  sequence = preferred ++ others ∧ sublist preferred sorted ∧ sublist others sorted.
Proof.
  intros sorted sequence preferred others.
  assert (Hsub : sublist sequence (PathGenerator.partitioned learner sorted)).
  { subst sequence. rewrite generate_sequence. apply first_occurrences_from_sublist. }
  rewrite partitioned_spec in Hsub.
  apply sublist_app_r in Hsub as (l1 & l2 & Heq & H1 & H2).
  assert (Hp1 : ∀ x, In x l1 → Notions.is_preferred learner x = true).
  { intros x Hx. apply list_elem_of_In in Hx.
    apply (elem_of_sublist _ _ _ Hx), list_elem_of_In, filter_In in H1. tauto. }
  assert (Hp2 : ∀ x, In x l2 → Notions.is_preferred learner x = false).
  { intros x Hx. apply list_elem_of_In in Hx.
    apply (elem_of_sublist _ _ _ Hx), list_elem_of_In, filter_In in H2.
    now apply negb_true_iff. }
  assert (E1 : preferred = l1).
  { subst preferred. rewrite Heq, List.filter_app.
    rewrite (filter_all _ l1 Hp1), (filter_none _ l2 Hp2). apply app_nil_r. }
  assert (E2 : others = l2).
  { subst others. rewrite Heq, List.filter_app.
    rewrite (filter_none _ l1), (filter_all _ l2); [reflexivity| |].
    - intros x Hx. now rewrite (Hp2 x Hx).
    - intros x Hx. now rewrite (Hp1 x Hx). }
  rewrite E1, E2. split; [exact Heq|].
  split; (etransitivity; [eassumption|apply sublist_filter_l]).
Qed.

(** X8. In a generated path the items of the content type that the
    learner's style prefers (activities for visual and kinesthetic
    learners, text for all others) come before all other items. *)
Theorem X8_generate_preferred_type_first (self : PathGenerator.t)
    (learner : LearnerProfile.t) (subject : string) :
  let sequence := LearningPath.content_sequence (PathGenerator.generate self learner subject) in
  sequence =
    List.filter (Notions.is_preferred learner) sequence ++
    List.filter (fun c => negb (Notions.is_preferred learner c)) sequence.
Proof. apply generate_groups. Qed.









(** ** More on [AssessmentEngine.evaluate] *)

(** X12. Whatever the answers, [evaluate] returns at least one area to
    improve: a topic, or one of its three messages. *)
Theorem X12_evaluate_areas_never_empty (learner_id subject : string)
    (answers : list (gmap string pyobject)) :
  AssessmentResult.areas_to_improve
    (AssessmentEngine.evaluate learner_id subject answers) ≠ [].
Proof.
  destruct answers as [|a answers]; [discriminate|].
  rewrite evaluate_areas by discriminate. cbv zeta.
  destruct (_ ++ _); discriminate.
Qed.

Lemma filter_correct_nil (answers : list (gmap string pyobject)) :
  List.Forall (fun a => AssessmentEngine.judged_correct a = false) answers →
  List.filter AssessmentEngine.judged_correct answers = [] ∧
  List.filter (fun a => negb (AssessmentEngine.judged_correct a)) answers = answers.
Proof.
  induction 1 as [|a answers Ha _ [IH1 IH2]]; [now split|].
  simpl. rewrite Ha. simpl. now rewrite IH1, IH2.
Qed.

(** X13. When every answer of a non-empty list is judged incorrect, the
    score is [0.0] and the areas to improve are the topics of the answers,
    each once in the order of first occurrence, followed by the message
    about the fundamental concepts of the subject. *)
Theorem X13_evaluate_all_incorrect (learner_id subject : string)
    (answers : list (gmap string pyobject)) :
  answers ≠ [] →
  List.Forall (fun a => AssessmentEngine.judged_correct a = false) answers →
  let result := AssessmentEngine.evaluate learner_id subject answers in
  AssessmentResult.score result = Float64.of_int 0 ∧
  AssessmentResult.areas_to_improve result =
    Spec.first_occurrences id (map (AssessmentEngine.topic_of subject) answers) ++
    [Notions.fundamental_message subject].
Proof.
  intros Hne Hall result.
  destruct (filter_correct_nil answers Hall) as [Hnone Hwrong].
  assert (Hscore : AssessmentResult.score result = Float64.of_int 0).
  { subst result. rewrite evaluate_score, correct_count_spec, Hnone by exact Hne.
    destruct answers as [|a answers]; [congruence|].
    change (Z.of_nat (length (a :: answers)))
      with (Z.pos (Pos.of_succ_nat (length answers))).
    unfold AssessmentEngine.score_of. simpl length. rewrite int_truediv_zero. reflexivity. }
  split; [exact Hscore|].
  subst result. rewrite evaluate_areas by exact Hne. cbv zeta.
  rewrite Hscore, incorrect_topics_spec, Hwrong.
  change (Float64.lt_int (Float64.of_int 0) 40) with true.
  unfold Notions.fundamental_message.
  destruct (Spec.first_occurrences id _ ++ _) eqn:E; [|reflexivity].
  now apply app_eq_nil in E as [_ E].
Qed.

(** Four wrong answers on three topics. *)
Lemma X13_four_wrong_answers :
  Samples.answers_all_wrong ≠ [] ∧
  AssessmentResult.score
    (AssessmentEngine.evaluate "L001" "science" Samples.answers_all_wrong) =
    Float64.of_int 0 ∧
  AssessmentResult.areas_to_improve
    (AssessmentEngine.evaluate "L001" "science" Samples.answers_all_wrong) =
    ["algebra"; "Algebra"; "Fundamental concepts in math"; "Fundamental concepts in science"].
Proof.
  split; [discriminate|].
  apply (X13_evaluate_all_incorrect "L001" "science" Samples.answers_all_wrong).
  - discriminate.
  - repeat constructor.
Defined.

(** X14. When every answer of a non-empty list is judged correct, the
    score is [100.0] and the only area to improve is the message that
    encourages the learner to go on to advanced topics. *)
Theorem X14_evaluate_all_correct (learner_id subject : string)
    (answers : list (gmap string pyobject)) :
  answers ≠ [] →
  List.Forall (fun a => AssessmentEngine.judged_correct a = true) answers →
  let result := AssessmentEngine.evaluate learner_id subject answers in
  AssessmentResult.score result = Float64.of_int 100 ∧
  AssessmentResult.areas_to_improve result =
    ["Continue to advanced topics — excellent performance!"].
Proof.
  intros Hne Hall result.
  assert (Hscore : AssessmentResult.score result = Float64.of_int 100).
  { subst result. rewrite evaluate_score, (correct_count_all _ Hall) by exact Hne.
    destruct answers as [|a answers]; [congruence|].
    change (Z.of_nat (length (a :: answers)))
      with (Z.pos (Pos.of_succ_nat (length answers))).
    apply score_of_all_correct. }
  split; [exact Hscore|].
  subst result. rewrite evaluate_areas by exact Hne. cbv zeta.
  rewrite Hscore, incorrect_topics_spec.
  rewrite (proj2 (filter_incorrect_nil answers) Hall). reflexivity.
Qed.

(** Five right answers, their flags in five spellings. *)
Lemma X14_five_right_answers :
  let answers :=
    [Samples.answer "q0" (PyBool true) "Fractions"; Samples.answer "q1" (PyStr "true") "Fractions";
     Samples.answer "q2" (PyStr "1") "Algebra"; Samples.answer "q3" (PyStr " Yes") "Algebra";
     Samples.answer "q4" (PyInt 1) "Geometry"] in
  AssessmentResult.score (AssessmentEngine.evaluate "L001" "math" answers) =
    Float64.of_int 100 ∧
  AssessmentResult.areas_to_improve (AssessmentEngine.evaluate "L001" "math" answers) =
    ["Continue to advanced topics — excellent performance!"].
Proof.
  apply X14_evaluate_all_correct; [discriminate|repeat constructor].
Defined.

Lemma incorrect_topics_In (subject : string) (answers : list (gmap string pyobject))
    (t : string) :
  In t (AssessmentEngine.incorrect_topics subject answers) ↔
  ∃ a, In a answers ∧ AssessmentEngine.judged_correct a = false ∧
       AssessmentEngine.topic_of subject a = t.
Proof.
  rewrite incorrect_topics_spec, first_occurrences_id_In, in_map_iff.
  split.
  - intros (a & Ht & Ha). apply filter_In in Ha as [Ha Hw].
    apply negb_true_iff in Hw. eauto.
  - intros (a & Ha & Hw & Ht). exists a. split; [exact Ht|].
    apply filter_In. split; [exact Ha|]. now rewrite Hw.
Qed.

Lemma incorrect_topics_NoDup (subject : string) (answers : list (gmap string pyobject)) :
  NoDup (AssessmentEngine.incorrect_topics subject answers).
Proof.
  rewrite incorrect_topics_spec.
  pose proof (first_occurrences_from_NoDup id []
                (map (AssessmentEngine.topic_of subject)
                   (List.filter (fun a => negb (AssessmentEngine.judged_correct a)) answers)))
    as H.
  now rewrite map_id in H.
Qed.

(** X15. The areas to improve hold no entry twice, unless an answer judged
    incorrect has for its topic the very message that [evaluate] adds for a
    low score. *)
Theorem X15_evaluate_areas_distinct (learner_id subject : string)
    (answers : list (gmap string pyobject)) :
  (∀ a, In a answers → AssessmentEngine.judged_correct a = false →
        AssessmentEngine.topic_of subject a ≠ Notions.fundamental_message subject) →
  NoDup (AssessmentResult.areas_to_improve
           (AssessmentEngine.evaluate learner_id subject answers)).
Proof.
  intros Hfresh. destruct answers as [|a0 answers].
  { simpl. apply NoDup_singleton. }
  rewrite evaluate_areas by discriminate. cbv zeta.
  set (all := a0 :: answers) in *.
  set (extra := if Float64.lt_int _ 40 then _ else _).
  assert (Hnd : NoDup (AssessmentEngine.incorrect_topics subject all ++ extra)).
  { apply NoDup_app. split; [apply incorrect_topics_NoDup|]. split.
    - intros t Ht Hextra. subst extra.
      destruct (Float64.lt_int _ 40); [|now apply elem_of_nil in Hextra].
      apply list_elem_of_singleton in Hextra. subst t.
      apply list_elem_of_In, incorrect_topics_In in Ht as (a & Ha & Hw & Heq).
      now apply (Hfresh a Ha Hw).
    - subst extra. destruct (Float64.lt_int _ 40);
        [apply NoDup_singleton|apply NoDup_nil_2]. }
  destruct (AssessmentEngine.incorrect_topics subject all ++ extra);
    [apply NoDup_singleton|exact Hnd].
Qed.

(** One right and two wrong answers on one topic: two areas, the topic and
    the message for low scores. *)
Lemma X15_areas_of_1_of_3 :
  AssessmentResult.areas_to_improve
    (AssessmentEngine.evaluate "L001" "math" Samples.answers_1_of_3) =
    ["Topic"; "Fundamental concepts in math"] ∧
  NoDup (AssessmentResult.areas_to_improve
           (AssessmentEngine.evaluate "L001" "math" Samples.answers_1_of_3)).
Proof.
  split; [reflexivity|].
  apply X15_evaluate_areas_distinct.
  intros a Ha _. simpl in Ha.
  destruct Ha as [<-|[<-|[<-|[]]]]; discriminate.
Defined.


Lemma filter_perm {A : Type} (p : A → bool) (l l' : list A) :
  Permutation l l' → Permutation (List.filter p l) (List.filter p l').
Proof.
  induction 1 as [|x l l' _ IH|x y l|l1 l2 l3 _ IH1 _ IH2]; simpl.
  - reflexivity.
  - destruct (p x); [now constructor|exact IH].
  - destruct (p x), (p y); try reflexivity. apply perm_swap.
  - now rewrite IH1.
Qed.

(** X17. The score does not depend on the order of the answers, and
    neither does the set of areas to improve; only their order does. *)
Theorem X17_evaluate_order_of_answers (learner_id subject : string)
    (answers answers' : list (gmap string pyobject)) :
  Permutation answers answers' →
  let result := AssessmentEngine.evaluate learner_id subject answers in
  let result' := AssessmentEngine.evaluate learner_id subject answers' in
  AssessmentResult.score result = AssessmentResult.score result' ∧
  (∀ t, In t (AssessmentResult.areas_to_improve result) ↔
        In t (AssessmentResult.areas_to_improve result')).
Proof.
  intros Hperm result result'.
  assert (Hscore : AssessmentResult.score result = AssessmentResult.score result').
  { subst result result'.
    destruct answers as [|a answers].
    { apply Permutation_nil in Hperm. now subst. }
    destruct answers' as [|a' answers'].
    { symmetry in Hperm. now apply Permutation_nil in Hperm. }
    rewrite !evaluate_score, !correct_count_spec by discriminate.
    rewrite (Permutation_length Hperm).
    now rewrite (Permutation_length
                   (filter_perm AssessmentEngine.judged_correct _ _ Hperm)). }
  split; [exact Hscore|].
  subst result result'.
  destruct answers as [|a answers].
  { apply Permutation_nil in Hperm. now subst. }
  destruct answers' as [|a' answers'].
  { symmetry in Hperm. now apply Permutation_nil in Hperm. }
  intros t. rewrite !evaluate_areas by discriminate. cbv zeta. rewrite <- Hscore.
  set (extra := if Float64.lt_int _ 40 then _ else _).
  assert (Htopics : ∀ u, In u (AssessmentEngine.incorrect_topics subject (a :: answers)) ↔
                         In u (AssessmentEngine.incorrect_topics subject (a' :: answers'))).
  { intros u. rewrite !incorrect_topics_In.
    split; intros (b & Hb & Hw); exists b; (split; [|exact Hw]).
    - now apply (Permutation_in _ Hperm).
    - now apply (Permutation_in _ (Permutation_sym Hperm)). }
  assert (Hlisted : ∀ u,
            In u (AssessmentEngine.incorrect_topics subject (a :: answers) ++ extra) ↔
            In u (AssessmentEngine.incorrect_topics subject (a' :: answers') ++ extra)).
  { intros u. rewrite !in_app_iff, Htopics. tauto. }
  destruct (AssessmentEngine.incorrect_topics subject (a :: answers) ++ extra)
    as [|x l] eqn:E1,
    (AssessmentEngine.incorrect_topics subject (a' :: answers') ++ extra)
    as [|x' l'] eqn:E2; try tauto.
  - exfalso. apply (proj2 (Hlisted x')). now left.
  - exfalso. apply (proj1 (Hlisted x)). now left.
  - apply Hlisted.
Qed.

(** The three answers with the right one last score like the three with
    the right one first, 33.3. *)
Lemma X17_right_answer_last :
  let answers' :=
    [Samples.answer "q1" (PyBool false) "Topic"; Samples.answer "q2" (PyBool false) "Topic";
     Samples.answer "q0" (PyBool true) "Topic"] in
  Permutation Samples.answers_1_of_3 answers' ∧
  AssessmentResult.score (AssessmentEngine.evaluate "L001" "math" answers') =
  Float64.decimal 333 1.
Proof.
  cbv zeta.
  assert (Hperm : Permutation Samples.answers_1_of_3
            [Samples.answer "q1" (PyBool false) "Topic";
             Samples.answer "q2" (PyBool false) "Topic";
             Samples.answer "q0" (PyBool true) "Topic"]).
  { unfold Samples.answers_1_of_3. rewrite perm_swap. apply perm_skip, perm_swap. }
  split; [exact Hperm|].
  rewrite <- (proj1 (X17_evaluate_order_of_answers "L001" "math" _ _ Hperm)).
  reflexivity.
Defined.

(** ** The correctness flag *)










Lemma judged_correct_with_boolean_flag (a : gmap string pyobject) :
  AssessmentEngine.judged_correct (Notions.with_boolean_flag a) =
  AssessmentEngine.judged_correct a.
Proof.
  unfold Notions.with_boolean_flag.
  unfold AssessmentEngine.judged_correct at 1. now rewrite lookup_insert_eq.
Qed.

Lemma topic_of_with_boolean_flag (subject : string) (a : gmap string pyobject) :
  AssessmentEngine.topic_of subject (Notions.with_boolean_flag a) =
  AssessmentEngine.topic_of subject a.
Proof.
  unfold Notions.with_boolean_flag, AssessmentEngine.topic_of.
  now rewrite lookup_insert_ne.
Qed.

Lemma evaluate_nonempty (learner_id subject : string) (answers : list (gmap string pyobject)) :
  answers ≠ [] →
  AssessmentEngine.evaluate learner_id subject answers =
  AssessmentResult.Build learner_id subject
    (AssessmentResult.score (AssessmentEngine.evaluate learner_id subject answers))
    (AssessmentResult.areas_to_improve (AssessmentEngine.evaluate learner_id subject answers)).
Proof. destruct answers; [congruence|reflexivity]. Qed.

Lemma correct_count_with_boolean_flag (answers : list (gmap string pyobject)) :
  AssessmentEngine.correct_count (map Notions.with_boolean_flag answers) =
  AssessmentEngine.correct_count answers.
Proof.
  rewrite !correct_count_spec. f_equal.
  induction answers as [|a l IH]; [reflexivity|]. simpl.
  rewrite judged_correct_with_boolean_flag.
  destruct (AssessmentEngine.judged_correct a); simpl; now rewrite IH.
Qed.

Lemma incorrect_topics_with_boolean_flag (subject : string)
    (answers : list (gmap string pyobject)) :
  AssessmentEngine.incorrect_topics subject (map Notions.with_boolean_flag answers) =
  AssessmentEngine.incorrect_topics subject answers.
Proof.
  rewrite !incorrect_topics_spec. f_equal.
  induction answers as [|a l IH]; [reflexivity|]. simpl.
  rewrite judged_correct_with_boolean_flag.
  destruct (AssessmentEngine.judged_correct a); simpl;
    now rewrite ?topic_of_with_boolean_flag, IH.
Qed.

(** X20. [evaluate] reads nothing from a correctness flag but its
    judgement: replacing the flag of every answer, whatever its type and
    spelling, by the boolean it is judged to be gives the same result. *)
Theorem X20_evaluate_on_boolean_flags (learner_id subject : string)
    (answers : list (gmap string pyobject)) :
  AssessmentEngine.evaluate learner_id subject (map Notions.with_boolean_flag answers) =
  AssessmentEngine.evaluate learner_id subject answers.
Proof.
  destruct answers as [|a0 answers]; [reflexivity|].
  assert (Hne : a0 :: answers ≠ []) by discriminate.
  assert (Hne' : map Notions.with_boolean_flag (a0 :: answers) ≠ []) by discriminate.
  assert (Hscore : AssessmentResult.score
                     (AssessmentEngine.evaluate learner_id subject
                        (map Notions.with_boolean_flag (a0 :: answers))) =
                   AssessmentResult.score
                     (AssessmentEngine.evaluate learner_id subject (a0 :: answers))).
  { rewrite !evaluate_score by assumption.
    now rewrite correct_count_with_boolean_flag, length_map. }
  rewrite (evaluate_nonempty _ _ _ Hne), (evaluate_nonempty _ _ _ Hne').
  rewrite !evaluate_areas by assumption. cbv zeta.
  now rewrite Hscore, incorrect_topics_with_boolean_flag.
Qed.

(** ** The label of [assess] *)

(** A float below 40 is below 60 and below 80. *)
Lemma below_40_not_above_60 (x : Float64.float) :
  Float64.lt_int x 40 = true → Cli.ge_int x 60 = false ∧ Cli.ge_int x 80 = false.
Proof.
  unfold Float64.lt_int, Cli.ge_int, SFltb, SFleb.
  replace (Float64.of_int 40) with (S754_finite false 5629499534213120 (-47))
    by (vm_compute; reflexivity).
  replace (Float64.of_int 60) with (S754_finite false 8444249301319680 (-47))
    by (vm_compute; reflexivity).
  replace (Float64.of_int 80) with (S754_finite false 5629499534213120 (-46))
    by (vm_compute; reflexivity).
  destruct x as [s|s| |s m e]; try (destruct s);
    cbv beta iota delta [SFcompare].
  1-6: first [discriminate | intros _; split; reflexivity].
  destruct (Z.compare_spec e (-47)) as [->|He|He].
  - rewrite Z.compare_refl. change (-46 ?= -47) with Gt. cbv iota.
    rewrite !Pos.compare_cont_spec. unfold Pos.switch_Eq.
    intros H. split; [|reflexivity].
    destruct (Pos.compare_spec m 5629499534213120) as [Hm|Hm|Hm];
      [exfalso; discriminate H| |exfalso; discriminate H].
    rewrite (proj2 (Pos.compare_gt_iff 8444249301319680 m));
      [reflexivity|]. apply (Pos.lt_trans _ _ _ Hm). reflexivity.
  - intros _.
    rewrite (proj2 (Z.compare_gt_iff (-47) e)) by lia.
    rewrite (proj2 (Z.compare_gt_iff (-46) e)) by lia.
    split; reflexivity.
  - intros H. exfalso. discriminate H.
Qed.

(** X19. The label that [assess] prints with the result of [evaluate] is
    [Needs Improvement] whenever the score is below 40, the case in which
    [evaluate] adds its message about fundamental concepts, and also when
    there are no answers; it is [Excellent] when every answer of a
    non-empty list is correct. *)
Theorem X19_assess_label (learner_id subject : string)
    (answers : list (gmap string pyobject)) :
  let score :=
    AssessmentResult.score (AssessmentEngine.evaluate learner_id subject answers) in
  (Float64.lt_int score 40 = true → Cli.grade_label score = "Needs Improvement") ∧
  (answers = [] → Cli.grade_label score = "Needs Improvement") ∧
  (answers ≠ [] →
   List.Forall (fun a => AssessmentEngine.judged_correct a = true) answers →
   Cli.grade_label score = "Excellent").
Proof.
  intros score. split; [|split].
  - intros H. destruct (below_40_not_above_60 score H) as [H60 H80].
    unfold Cli.grade_label. now rewrite H80, H60.
  - intros ->. reflexivity.
  - intros Hne Hall. subst score.
    rewrite evaluate_score, (correct_count_all _ Hall) by exact Hne.
    destruct answers as [|a answers]; [congruence|].
    change (Z.of_nat (length (a :: answers)))
      with (Z.pos (Pos.of_succ_nat (length answers))).
    rewrite score_of_all_correct. reflexivity.
Qed.

(** One right answer of three: the score 33.3 is labelled
    [Needs Improvement]. *)
Lemma X19_label_of_1_of_3 :
  Cli.grade_label
    (AssessmentResult.score
       (AssessmentEngine.evaluate "L001" "math" Samples.answers_1_of_3)) =
  "Needs Improvement".
Proof.
  apply (proj1 (X19_assess_label "L001" "math" Samples.answers_1_of_3)). reflexivity.
Defined.
